(** * The LangExtract command-line bridge ([services/python/extract_structured.py])

    A shallow embedding of the bridge script and the properties of its
    output contract.  The script parses four command-line options, calls
    [lx.extract] once with a hard-coded example, reshapes the returned
    object into a dictionary, and prints it as JSON; every [Exception]
    raised on the way is reported as a JSON object on standard error.

    Python objects are duck typed, so the result of the library call is
    modelled in a small universe of Python values ([Py.pyval]).  Attribute
    access, [hasattr], iteration and [json.dumps] are modelled with the
    exceptions they raise.  The process is a computation in a small
    state-and-exception monad ([Proc]) over the two output streams and the
    log of calls into the library.

    A [string] is a sequence of characters with code points below 256,
    one [ascii] each.  The interpreter is CPython 3.11 with its default
    settings; standard and third-party modules ([argparse], [json],
    [dotenv], [langextract]) are modelled as far as the script uses
    them.  An installed [langextract] imports without raising and has
    the two classes of [lx.data] the script instantiates; what its
    [extract] does is left open.  A process that is killed or
    interrupted by a signal from outside is not modelled. *)

From Stdlib Require Import List String Ascii ZArith Bool Lia.
Import ListNotations.
Local Open Scope string_scope.
Local Open Scope list_scope.

#[local] Set Warnings "-register-all".

(* ================================================================== *)
(** ** Python values, exceptions and the operations the bridge applies *)
(* ================================================================== *)

Module Py.

(** What is read of an exception: [type(e).__name__] and [str(e)].
    Where a computation raises it ([Raise] below, [Raises] in the
    process) it is an instance of a class derived from [Exception];
    what is not is kept apart ([Exits] and [Escapes] in the process). *)
Record exn : Type := Exn { exn_type : string; exn_str : string }.

Definition AttributeError (msg : string) : exn := Exn "AttributeError" msg.
Definition TypeError (msg : string) : exn := Exn "TypeError" msg.
Definition ValueError (msg : string) : exn := Exn "ValueError" msg.

(** A computation that returns or raises. *)
Inductive res (A : Type) : Type :=
| Ok (a : A)
| Raise (e : exn).
Arguments Ok {A} a.
Arguments Raise {A} e.

Definition bind {A B} (m : res A) (k : A -> res B) : res B :=
  match m with
  | Ok a => k a
  | Raise e => Raise e
  end.

Notation "x <- m ;; k" := (bind m (fun x => k))
  (at level 61, m at next level, right associativity).

(** A list comprehension [[f(x) for x in xs]]: [f] is applied from left to
    right and the first exception ends the loop. *)
Fixpoint comprehension {A B} (f : A -> res B) (xs : list A) : res (list B) :=
  match xs with
  | [] => Ok []
  | x :: rest =>
      y <- f x ;;
      ys <- comprehension f rest ;;
      Ok (y :: ys)
  end.

(** The values a result object is built from.  [PObj cls attrs] is an
    instance of a class named [cls] whose instance dictionary is [attrs];
    it defines no [__iter__] and [json] has no encoder for it.  A [PDict]
    has string keys and keeps insertion order. *)
Inductive pyval : Type :=
| PNone
| PBool (b : bool)
| PInt (z : Z)
| PStr (s : string)
| PList (xs : list pyval)
| PDict (kvs : list (string * pyval))
| PObj (cls : string) (attrs : list (string * pyval)).

(** [type(v).__name__] *)
Definition type_name (v : pyval) : string :=
  match v with
  | PNone => "NoneType"
  | PBool _ => "bool"
  | PInt _ => "int"
  | PStr _ => "str"
  | PList _ => "list"
  | PDict _ => "dict"
  | PObj cls _ => cls
  end.

Fixpoint lookup {A} (k : string) (kvs : list (string * A)) : option A :=
  match kvs with
  | [] => None
  | (k', v) :: rest => if String.eqb k k' then Some v else lookup k rest
  end.

(** [v.name].  The bridge reads ten attribute names ([extractions],
    [model_id], [usage_metadata], [extraction_class], [extraction_text],
    [attributes], [citations], [start], [end], [text]); none of them is an
    attribute of [None], [bool], [int], [str], [list] or [dict], so on
    those the access raises. *)
Definition getattr (v : pyval) (name : string) : res pyval :=
  match v with
  | PObj cls attrs =>
      match lookup name attrs with
      | Some a => Ok a
      | None =>
          Raise (AttributeError
                   ("'" ++ cls ++ "' object has no attribute '" ++ name ++ "'"))
      end
  | _ =>
      Raise (AttributeError
               ("'" ++ type_name v ++ "' object has no attribute '" ++ name ++ "'"))
  end.

(** [hasattr(v, name)]: whether [getattr] raises [AttributeError]. *)
Definition hasattr (v : pyval) (name : string) : bool :=
  match getattr v name with
  | Ok _ => true
  | Raise _ => false
  end.

Fixpoint chars (s : string) : list pyval :=
  match s with
  | EmptyString => []
  | String c rest => PStr (String c EmptyString) :: chars rest
  end.

(** The items [for x in v] goes through: the elements of a list, the
    characters of a string, the keys of a dictionary; anything else is
    not iterable. *)
Definition iter (v : pyval) : res (list pyval) :=
  match v with
  | PList xs => Ok xs
  | PStr s => Ok (chars s)
  | PDict kvs => Ok (map (fun kv => PStr (fst kv)) kvs)
  | _ => Raise (TypeError ("'" ++ type_name v ++ "' object is not iterable"))
  end.

End Py.
Export Py.

(* ================================================================== *)
(** ** JSON documents and [json.dumps] *)
(* ================================================================== *)

Module Json.

Inductive json : Type :=
| JNull
| JBool (b : bool)
| JNum (z : Z)
| JStr (s : string)
| JArr (items : list json)
| JObj (fields : list (string * json)).

(** [10 ** sys.get_int_max_str_digits()]: an integer is converted to
    text only when it has at most 4300 decimal digits. *)
Definition int_str_limit : Z := Eval vm_compute in (10 ^ 4300)%Z.

Arguments int_str_limit : simpl never.

Definition int_too_long : string :=
  "Exceeds the limit (4300 digits) for integer string conversion; use sys.set_int_max_str_digits() to increase the limit".

(** The document [json.dumps(v)] writes, or what it raises:
    [TypeError] on a value that has no JSON form, [ValueError] on an
    integer too long to be written.  (A [pyval] is a tree, so the
    [ValueError] of a circular reference does not arise.) *)
Fixpoint encode (v : pyval) : res json :=
  match v with
  | PNone => Ok JNull
  | PBool b => Ok (JBool b)
  | PInt z =>
      if (Z.abs z <? int_str_limit)%Z then Ok (JNum z)
      else Raise (ValueError int_too_long)
  | PStr s => Ok (JStr s)
  | PList xs =>
      items <- (fix each (l : list pyval) : res (list json) :=
                  match l with
                  | [] => Ok []
                  | x :: rest =>
                      j <- encode x ;; js <- each rest ;; Ok (j :: js)
                  end) xs ;;
      Ok (JArr items)
  | PDict kvs =>
      fields <- (fix each (l : list (string * pyval)) : res (list (string * json)) :=
                   match l with
                   | [] => Ok []
                   | (k, x) :: rest =>
                       j <- encode x ;; js <- each rest ;; Ok ((k, j) :: js)
                   end) kvs ;;
      Ok (JObj fields)
  | PObj cls _ =>
      Raise (TypeError ("Object of type " ++ cls ++ " is not JSON serializable"))
  end.

(** The member [name] of a JSON object. *)
Definition field (name : string) (j : json) : option json :=
  match j with
  | JObj fields => lookup name fields
  | _ => None
  end.

(** The names of the members of a JSON object, in order. *)
Definition field_names (j : json) : option (list string) :=
  match j with
  | JObj fields => Some (map fst fields)
  | _ => None
  end.

End Json.
Export Json.

(* ================================================================== *)
(** ** The argument parser

    [argparse] as the bridge configures it: the help flag and four
    options that take one string each, two of them required.  The
    definitions follow CPython 3.11's [argparse]: each argument string
    is first classified as an option or a plain argument
    ([_parse_optional]), then the options are consumed from left to
    right ([consume_optional]); missing required options and left-over
    strings are reported at the end.  An error ends the process through
    [parser.error] (usage message on standard error, status 2).

    The parser has no positional argument, so the separator [--] can
    only be left over or stand where a value is expected; both are
    errors.  Attached to an option ([--file=--]) it is dropped from the
    values of the option ([_get_values]), which leaves the empty list
    as the value. *)
(* ================================================================== *)

Module Argparse.

Inductive dest : Type := Help | File | Prompt | Model | Schema.

(** [parser._option_string_actions], in the order of registration
    (lines 21-25 of the script; [-h] and [--help] are added by
    [ArgumentParser] itself). *)
Definition option_strings : list (string * dest) :=
  [ ("-h", Help); ("--help", Help);
    ("--file", File); ("--prompt", Prompt);
    ("--model", Model); ("--schema", Schema) ].

(** The value of [args] when parsing succeeds.  The value of an option
    is the string given for it, or the empty list (see above);
    [schema] is [None] when the option is not given. *)
Record Namespace : Type := {
  file : pyval;
  prompt : pyval;
  model : pyval;
  schema : option pyval
}.

Inductive usage_error : Type :=
| RequiredMissing (names : list string)
| ExpectedOneArgument (option_string : string)
| IgnoredExplicitArgument (option_string : string) (arg : string)
| AmbiguousOption (arg : string) (matches : list string)
| UnrecognizedArguments (extras : list string).

Inductive parsed : Type :=
| Parsed (args : Namespace)
| HelpRequested
| UsageError (err : usage_error).

(** *** Strings *)

Definition is_digit (c : ascii) : bool :=
  let n := nat_of_ascii c in (48 <=? n)%nat && (n <=? 57)%nat.

Fixpoint all_chars (p : ascii -> bool) (s : string) : bool :=
  match s with
  | EmptyString => true
  | String c rest => p c && all_chars p rest
  end.

Fixpoint has_char (c : ascii) (s : string) : bool :=
  match s with
  | EmptyString => false
  | String c' rest => Ascii.eqb c c' || has_char c rest
  end.

(** [s.split(c, 1)] when [c] occurs in [s]. *)
Fixpoint split_at (c : ascii) (s : string) : option (string * string) :=
  match s with
  | EmptyString => None
  | String c' rest =>
      if Ascii.eqb c c' then Some (EmptyString, rest)
      else match split_at c rest with
           | Some (l, r) => Some (String c' l, r)
           | None => None
           end
  end.

Fixpoint drop_digits (s : string) : string :=
  match s with
  | String c rest => if is_digit c then drop_digits rest else s
  | EmptyString => s
  end.

(** [s] without one final newline, which [$] lets pass. *)
Fixpoint before_final_newline (s : string) : string :=
  match s with
  | String c EmptyString => if Ascii.eqb c "010" then EmptyString else s
  | String c rest => String c (before_final_newline rest)
  | EmptyString => EmptyString
  end.

(** [^-\d+$|^-\d*\.\d+$]: among the characters of a [string], [\d]
    are the ten digits. *)
Definition negative_number_like (s : string) : bool :=
  match before_final_newline s with
  | String "-" body =>
      match body with
      | EmptyString => false
      | _ =>
          all_chars is_digit body
          || match drop_digits body with
             | String "." frac =>
                 match frac with
                 | EmptyString => false
                 | _ => all_chars is_digit frac
                 end
             | _ => false
             end
      end
  | _ => false
  end.

(** *** Classification of one argument string *)

Inductive arg_kind : Type :=
| Plain
| Opt (d : dest) (option_string : string) (explicit_arg : option string)
| UnknownOpt
| Ambiguous (matches : list string).

(** [parser._get_option_tuples]: the registered option strings the
    argument abbreviates. *)
Definition get_option_tuples (arg : string)
  : list (dest * string * option string) :=
  match arg with
  | String "-" (String "-" _) =>
      let (option_prefix, explicit_arg) :=
        match split_at "=" arg with
        | Some (l, r) => (l, Some r)
        | None => (arg, None)
        end in
      flat_map (fun od : string * dest =>
                  if String.prefix option_prefix (fst od)
                  then [(snd od, fst od, explicit_arg)] else [])
               option_strings
  | String "-" (String c short_explicit_arg) =>
      let short_option_prefix := String "-" (String c EmptyString) in
      flat_map (fun od : string * dest =>
                  if String.eqb (fst od) short_option_prefix
                  then [(snd od, fst od, Some short_explicit_arg)]
                  else if String.prefix arg (fst od)
                  then [(snd od, fst od, None)] else [])
               option_strings
  | _ => []
  end.

(** [parser._parse_optional] *)
Definition parse_optional (arg : string) : arg_kind :=
  match arg with
  | EmptyString => Plain
  | String c rest =>
      if negb (Ascii.eqb c "-") then Plain
      else match lookup arg option_strings with
      | Some d => Opt d arg None
      | None =>
        match rest with
        | EmptyString => Plain
        | _ =>
          let exact_with_value :=
            match split_at "=" arg with
            | Some (option_string, explicit_arg) =>
                match lookup option_string option_strings with
                | Some d => Some (Opt d option_string (Some explicit_arg))
                | None => None
                end
            | None => None
            end in
          match exact_with_value with
          | Some k => k
          | None =>
            match get_option_tuples arg with
            | [(d, option_string, explicit_arg)] =>
                Opt d option_string explicit_arg
            | (_ :: _ :: _) as tuples =>
                Ambiguous (map (fun t => snd (fst t)) tuples)
            | [] =>
                if negative_number_like arg then Plain
                else if has_char " " arg then Plain
                else UnknownOpt
            end
          end
        end
      end
  end.

Definition is_plain (arg : string) : bool :=
  match parse_optional arg with
  | Plain => true
  | _ => false
  end.

(** *** Consuming the options *)

(** The namespace while it is filled: the defaults of line 22-25. *)
Record partial : Type := {
  p_file : option pyval;
  p_prompt : option pyval;
  p_model : pyval;
  p_schema : option pyval
}.

Definition defaults : partial :=
  {| p_file := None; p_prompt := None;
     p_model := PStr "gemini-2.0-flash"; p_schema := None |}.

(** [_get_values] on the one string attached to an option with [=]:
    the separator is removed from the strings first, and none is left
    of [--]. *)
Definition attached (explicit_arg : string) : pyval :=
  if String.eqb explicit_arg "--" then PList [] else PStr explicit_arg.

(** The store action [setattr(namespace, dest, value)]. *)
Definition store (d : dest) (value : pyval) (ns : partial) : partial :=
  match d with
  | File => {| p_file := Some value; p_prompt := p_prompt ns;
               p_model := p_model ns; p_schema := p_schema ns |}
  | Prompt => {| p_file := p_file ns; p_prompt := Some value;
                 p_model := p_model ns; p_schema := p_schema ns |}
  | Model => {| p_file := p_file ns; p_prompt := p_prompt ns;
                p_model := value; p_schema := p_schema ns |}
  | Schema => {| p_file := p_file ns; p_prompt := p_prompt ns;
                 p_model := p_model ns; p_schema := Some value |}
  | Help => ns
  end.

(** The first option string of an action, which names it in messages. *)
Definition display_name (d : dest) : string :=
  match d with
  | Help => "-h/--help"
  | File => "--file"
  | Prompt => "--prompt"
  | Model => "--model"
  | Schema => "--schema"
  end.

(** The end of [parse_args]: required options, then left-over strings. *)
Definition finish (ns : partial) (extras : list string) : parsed :=
  match p_file ns, p_prompt ns with
  | Some f, Some p =>
      match extras with
      | [] => Parsed {| file := f; prompt := p;
                        model := p_model ns; schema := p_schema ns |}
      | _ => UsageError (UnrecognizedArguments extras)
      end
  | None, Some _ => UsageError (RequiredMissing ["--file"])
  | Some _, None => UsageError (RequiredMissing ["--prompt"])
  | None, None => UsageError (RequiredMissing ["--file"; "--prompt"])
  end.

(** The consuming loop.  After the separator [--] every string is a
    plain argument; the parser has no positional to give them to, so
    they are left over, the separator with them.  The value of an
    option is the next string, which must be a plain argument and not
    the separator. *)
Fixpoint consume (ns : partial) (extras : list string) (args : list string)
  : parsed :=
  match args with
  | [] => finish ns extras
  | arg :: rest =>
      if String.eqb arg "--" then finish ns (extras ++ arg :: rest)
      else
        match parse_optional arg with
        | Plain | UnknownOpt | Ambiguous _ => consume ns (extras ++ [arg]) rest
        | Opt Help option_string None => HelpRequested
        | Opt Help option_string (Some explicit_arg) =>
            (* a run of single-dash flags such as [-hh] *)
            if String.eqb option_string "-h"
               && negb (String.eqb explicit_arg "")
               && all_chars (Ascii.eqb "h") explicit_arg
            then HelpRequested
            else UsageError
                   (IgnoredExplicitArgument (display_name Help) explicit_arg)
        | Opt d option_string (Some explicit_arg) =>
            consume (store d (attached explicit_arg) ns) extras rest
        | Opt d option_string None =>
            match rest with
            | [] => UsageError (ExpectedOneArgument (display_name d))
            | value :: rest' =>
                if negb (String.eqb value "--") && is_plain value
                then consume (store d (PStr value) ns) extras rest'
                else UsageError (ExpectedOneArgument (display_name d))
            end
        end
  end.

(** The first ambiguous abbreviation before the separator: it is
    reported while the strings are classified, before any is consumed. *)
Fixpoint first_ambiguous (args : list string) : option usage_error :=
  match args with
  | [] => None
  | arg :: rest =>
      if String.eqb arg "--" then None
      else match parse_optional arg with
           | Ambiguous matches => Some (AmbiguousOption arg matches)
           | _ => first_ambiguous rest
           end
  end.

(** [parser.parse_args()] on [sys.argv[1:]] *)
Definition parse_args (argv : list string) : parsed :=
  match first_ambiguous argv with
  | Some err => UsageError err
  | None => consume defaults [] argv
  end.

End Argparse.

(* ================================================================== *)
(** ** The extraction library, as the bridge sees it *)
(* ================================================================== *)

Module Lx.

(** [lx.data.Extraction(extraction_class=, extraction_text=, attributes=)] *)
Record Extraction : Type := {
  extraction_class : string;
  extraction_text : string;
  attributes : list (string * string)
}.

(** [lx.data.ExampleData(text=, extractions=)] *)
Record ExampleData : Type := {
  text : string;
  extractions : list Extraction
}.

(** The keyword arguments of one call of [lx.extract]: the first three
    are the values of [args.file], [args.prompt] and [args.model]. *)
Record Request : Type := {
  text_or_documents : pyval;
  prompt_description : pyval;
  model_id : pyval;
  examples : list ExampleData
}.

(** What a call of [lx.extract] does: it returns an object or raises an
    instance of [Exception] ([Reply]); it raises [SystemExit] with some
    code, as [sys.exit(code)] does; or it raises something else
    that is not an [Exception] ([GeneratorExit], an instance of a class
    derived from [BaseException] directly), described by its type name
    and text.  ([KeyboardInterrupt] stands for a signal and is left to
    the interruptions from outside.) *)
Inductive reply : Type :=
| Reply (r : res pyval)
| SystemExit (code : pyval)
| BaseException (e : exn).

(** The imported package.  [extract] is opaque to the bridge: given the
    process environment (where it looks for credentials), the readable
    files of the host (it is the library that opens the document) and a
    request, it replies. *)
Record Library : Type := {
  extract : list (string * string) -> (string -> bool) -> Request -> reply
}.

End Lx.

(* ================================================================== *)
(** ** The process *)
(* ================================================================== *)

(** What the process is started with. *)
Record Host : Type := {
  langextract : option Lx.Library;      (* [None]: the package is not installed *)
  argv : list string;                   (* [sys.argv[1:]] *)
  os_environ : list (string * string);  (* the environment of the process *)
  dotenv_installed : bool;              (* [dotenv] can be imported *)
  dotenv_file : res (list (string * string));
                                        (* what reading the local environment
                                           file gives: its variables ([[]]
                                           without a file), or the exception
                                           [load_dotenv] raises on it *)
  readable : string -> bool             (* the paths that name a readable file *)
}.

(** One [print] on an output stream. *)
Inductive written : Type :=
| JsonText (indent : option nat) (doc : json)  (* [print(json.dumps(v, indent=n))] *)
| UsageMessage (err : Argparse.usage_error)    (* usage line and error, from [argparse] *)
| HelpMessage                                  (* the help text, from [argparse] *)
| Traceback (e : exn)                          (* the interpreter, on an uncaught exception *)
| ExitText (code : pyval).                     (* the interpreter, on a [SystemExit] whose
                                                  code is no integer: [str(code)] *)

Record Process : Type := {
  environ : list (string * string);
  stdout : list written;
  stderr : list written;
  calls : list Lx.Request                      (* the calls of [lx.extract], in order *)
}.

(** How a piece of the script ends: it falls through, raises an
    [Exception], raises [SystemExit] ([sys.exit]), or raises something
    else that is not an [Exception]. *)
Inductive ending (A : Type) : Type :=
| Returns (a : A)
| Raises (e : exn)
| Exits (code : pyval)
| Escapes (e : exn).
Arguments Returns {A} a.
Arguments Raises {A} e.
Arguments Exits {A} code.
Arguments Escapes {A} e.

Definition Proc (A : Type) : Type := Process -> Process * ending A.

Definition ret {A} (a : A) : Proc A := fun p => (p, Returns a).

Definition pbind {A B} (m : Proc A) (k : A -> Proc B) : Proc B :=
  fun p =>
    match m p with
    | (p', Returns a) => k a p'
    | (p', Raises e) => (p', Raises e)
    | (p', Exits n) => (p', Exits n)
    | (p', Escapes e) => (p', Escapes e)
    end.

Notation "x <~ m ;; k" := (pbind m (fun x => k))
  (at level 61, m at next level, right associativity).
Notation "m ;;; k" := (pbind m (fun _ => k))
  (at level 61, right associativity).

(** A pure computation that may raise, run inside the process. *)
Definition lift {A} (r : res A) : Proc A :=
  fun p => match r with
           | Ok a => (p, Returns a)
           | Raise e => (p, Raises e)
           end.

(** [sys.exit(status)] *)
Definition sys_exit {A} (status : Z) : Proc A :=
  fun p => (p, Exits (PInt status)).

Inductive stream : Type := Stdout | Stderr.

(** [print(x, file=s)] *)
Definition print (s : stream) (x : written) : Proc unit :=
  fun p =>
    match s with
    | Stdout => ({| environ := environ p; stdout := stdout p ++ [x];
                    stderr := stderr p; calls := calls p |}, Returns tt)
    | Stderr => ({| environ := environ p; stdout := stdout p;
                    stderr := stderr p ++ [x]; calls := calls p |}, Returns tt)
    end.

(** [print(json.dumps(v, indent=indent), file=s)]: the document is
    encoded in full before anything is written. *)
Definition print_json (s : stream) (indent : option nat) (v : pyval) : Proc unit :=
  doc <~ lift (encode v) ;;
  print s (JsonText indent doc).

(** [try: body  except C as e: handler(e)], where [catches] tells the
    instances of [C].  What is not an [Exception] passes. *)
Definition try_except {A} (body : Proc A) (catches : exn -> bool)
           (handler : exn -> Proc A) : Proc A :=
  fun p =>
    match body p with
    | (p', Raises e) => if catches e then handler e p' else (p', Raises e)
    | other => other
    end.

(** [os.getenv(name)] *)
Definition getenv (name : string) : Proc (option string) :=
  fun p => (p, Returns (lookup name (environ p))).

(** [from dotenv import load_dotenv] *)
Definition import_dotenv (h : Host) : Proc unit :=
  if dotenv_installed h then ret tt
  else lift (Raise (Exn "ModuleNotFoundError" "No module named 'dotenv'")).

(** [load_dotenv()]: the variables of the environment file are added to
    the environment; a variable that is already set keeps its value. *)
Definition load_dotenv (h : Host) : Proc unit :=
  fun p =>
    match dotenv_file h with
    | Ok variables =>
        ({| environ := environ p
                       ++ filter (fun kv => match lookup (fst kv) (environ p) with
                                            | Some _ => false
                                            | None => true
                                            end) variables;
            stdout := stdout p; stderr := stderr p; calls := calls p |},
         Returns tt)
    | Raise e => (p, Raises e)
    end.

(** [import langextract as lx] *)
Definition import_langextract (h : Host) : Proc Lx.Library :=
  match langextract h with
  | Some lx => ret lx
  | None =>
      lift (Raise (Exn "ModuleNotFoundError" "No module named 'langextract'"))
  end.

(** [except ImportError]: the class and its built-in subclass. *)
Definition is_ImportError (e : exn) : bool :=
  String.eqb (exn_type e) "ImportError"
  || String.eqb (exn_type e) "ModuleNotFoundError".

(** [except Exception]: what [Raises] carries is an instance; what is
    not an [Exception] is carried by [Exits] and [Escapes], which
    [try_except] lets pass. *)
Definition is_Exception (e : exn) : bool := true.

(** [lx.extract(...)] with the keyword arguments [request]: the call is
    logged, then the library answers. *)
Definition lx_extract (h : Host) (lx : Lx.Library) (request : Lx.Request)
  : Proc pyval :=
  fun p =>
    let p' := {| environ := environ p; stdout := stdout p;
                 stderr := stderr p; calls := calls p ++ [request] |} in
    match Lx.extract lx (environ p) (readable h) request with
    | Lx.Reply (Ok result) => (p', Returns result)
    | Lx.Reply (Raise e) => (p', Raises e)
    | Lx.SystemExit code => (p', Exits code)
    | Lx.BaseException e => (p', Escapes e)
    end.

(** [parser.parse_args()]: the help text goes to standard output with
    status 0, a usage error to standard error with status 2. *)
Definition parse_args (argv : list string) : Proc Argparse.Namespace :=
  match Argparse.parse_args argv with
  | Argparse.Parsed args => ret args
  | Argparse.HelpRequested => print Stdout HelpMessage ;;; sys_exit 0
  | Argparse.UsageError err => print Stderr (UsageMessage err) ;;; sys_exit 2
  end.

(* ================================================================== *)
(** ** The bridge ([extract_structured.py]) *)
(* ================================================================== *)

(** The message of lines 11-13. *)
Definition not_installed : string :=
  "langextract not installed. Please run 'pip install -r services/python/requirements.txt'".

(** Lines 30-33: the two credential variables are looked up and the
    branch that finds neither is [pass]. *)
Definition validate_api_key : Proc unit :=
  langextract_api_key <~ getenv "LANGEXTRACT_API_KEY" ;;
  google_api_key <~ getenv "GOOGLE_API_KEY" ;;
  let unset (v : option string) :=
    match v with
    | None | Some EmptyString => true
    | Some _ => false
    end in
  if unset langextract_api_key && unset google_api_key
  then ret tt
  else ret tt.

(** Lines 49-60: the example set. *)
Definition examples : list Lx.ExampleData :=
  [ {| Lx.text := "Alice lives in Wonderland.";
       Lx.extractions :=
         [ {| Lx.extraction_class := "entity";
              Lx.extraction_text := "Alice";
              Lx.attributes := [("type", "person"); ("context", "protagonist")] |} ] |} ].

(** Lines 79-83: [{"start": c.start, "end": c.end, "text": c.text}] *)
Definition citation_entry (c : pyval) : res pyval :=
  c_start <- getattr c "start" ;;
  c_end <- getattr c "end" ;;
  c_text <- getattr c "text" ;;
  Ok (PDict [("start", c_start); ("end", c_end); ("text", c_text)]).

(** Lines 78-84: the conditional expression
    [[... for c in e.citations] if hasattr(e, 'citations') else []] *)
Definition citations_of (e : pyval) : res pyval :=
  if hasattr e "citations" then
    e_citations <- getattr e "citations" ;;
    cs <- iter e_citations ;;
    entries <- comprehension citation_entry cs ;;
    Ok (PList entries)
  else Ok (PList []).

(** Lines 74-85: the dictionary built for one item [e]. *)
Definition extraction_entry (e : pyval) : res pyval :=
  e_class <- getattr e "extraction_class" ;;
  e_text <- getattr e "extraction_text" ;;
  e_attributes <- getattr e "attributes" ;;
  e_citations <- citations_of e ;;
  Ok (PDict [("class", e_class); ("text", e_text);
             ("attributes", e_attributes); ("citations", e_citations)]).

(** Lines 72-90: the dictionary [output]. *)
Definition output (result : pyval) : res pyval :=
  result_extractions <- getattr result "extractions" ;;
  es <- iter result_extractions ;;
  entries <- comprehension extraction_entry es ;;
  result_model_id <- getattr result "model_id" ;;
  result_usage_metadata <- getattr result "usage_metadata" ;;
  Ok (PDict [("extractions", PList entries);
             ("model", result_model_id);
             ("usage", result_usage_metadata)]).

(** Lines 62-67: the keyword arguments of the call. *)
Definition request_of (args : Argparse.Namespace) : Lx.Request :=
  {| Lx.text_or_documents := Argparse.file args;
     Lx.prompt_description := Argparse.prompt args;
     Lx.model_id := Argparse.model args;
     Lx.examples := examples |}.

(** Lines 94-95: [{"error": str(e), "type": type(e).__name__}] *)
Definition error_msg (e : exn) : pyval :=
  PDict [("error", PStr (exn_str e)); ("type", PStr (exn_type e))].

(** Lines 20-97. *)
Definition main (lx : Lx.Library) (h : Host) : Proc unit :=
  args <~ parse_args (argv h) ;;
  validate_api_key ;;;
  try_except
    (result <~ lx_extract h lx (request_of args) ;;
     out <~ lift (output result) ;;
     print_json Stdout (Some 2%nat) out)
    is_Exception
    (fun e =>
       print_json Stderr None (error_msg e) ;;;
       sys_exit 1).

(** The module, run as a script: lines 9-18 and 99-100.  Only the
    first import is guarded. *)
Definition script (h : Host) : Proc unit :=
  lx <~ try_except (import_langextract h) is_ImportError
          (fun _ =>
             print_json Stderr None (PDict [("error", PStr not_installed)]) ;;;
             sys_exit 1) ;;
  import_dotenv h ;;;
  load_dotenv h ;;;
  main lx h.

(** What is left when the process is over. *)
Record Finished : Type := {
  final : Process;
  exit_status : Z
}.

(** The status the operating system gets for [SystemExit(n)], where a
    C [long] has 64 bits: the low eight bits of [n] when it fits, and
    those of -1 when it does not. *)
Definition os_status (n : Z) : Z :=
  if ((- 2 ^ 63 <=? n) && (n <? 2 ^ 63))%Z then n mod 256 else 255.

(** What the interpreter makes of the code of a [SystemExit]: [None]
    is status 0, an integer (a boolean is one) its status, anything
    else is printed on standard error with status 1. *)
Definition exit_status_of (code : pyval) : Z :=
  match code with
  | PNone => 0
  | PBool b => if b then 1 else 0
  | PInt n => os_status n
  | _ => 1
  end.

Definition exit_text_of (code : pyval) : list written :=
  match code with
  | PNone | PBool _ | PInt _ => []
  | other => [ExitText other]
  end.

(** The interpreter runs the script in a fresh process: falling off the
    end is status 0, [SystemExit] ends it as its code says, any other
    uncaught exception is printed as a traceback with status 1. *)
Definition run (h : Host) : Finished :=
  let start := {| environ := os_environ h; stdout := []; stderr := [];
                  calls := [] |} in
  let uncaught (p : Process) (e : exn) :=
    {| final := {| environ := environ p; stdout := stdout p;
                   stderr := stderr p ++ [Traceback e]; calls := calls p |};
       exit_status := 1 |} in
  match script h start with
  | (p, Returns _) => {| final := p; exit_status := 0 |}
  | (p, Exits code) =>
      {| final := {| environ := environ p; stdout := stdout p;
                     stderr := stderr p ++ exit_text_of code; calls := calls p |};
         exit_status := exit_status_of code |}
  | (p, Raises e) => uncaught p e
  | (p, Escapes e) => uncaught p e
  end.

Definition out_of (h : Host) : list written := stdout (final (run h)).
Definition err_of (h : Host) : list written := stderr (final (run h)).
Definition calls_of (h : Host) : list Lx.Request := calls (final (run h)).

(* ================================================================== *)
(** ** Vocabulary of the contract *)
(* ================================================================== *)

(** Lines 15 and 18 go through: [dotenv] can be imported and
    [load_dotenv()] raises nothing. *)
Definition loads_dotenv (h : Host) : Prop :=
  dotenv_installed h = true /\ exists variables, dotenv_file h = Ok variables.

(** The variables [load_dotenv()] has read. *)
Definition file_variables (h : Host) : list (string * string) :=
  match dotenv_file h with
  | Ok variables => variables
  | Raise _ => []
  end.

(** The environment the library call sees: [load_dotenv] has run. *)
Definition loaded_environ (h : Host) : list (string * string) :=
  os_environ h
  ++ filter (fun kv => match lookup (fst kv) (os_environ h) with
                       | Some _ => false
                       | None => true
                       end) (file_variables h).

(** The run reaches the library call with arguments [args] and ... *)
Definition reaches_call (h : Host) (lx : Lx.Library) (args : Argparse.Namespace)
  : Prop :=
  langextract h = Some lx /\
  loads_dotenv h /\
  Argparse.parse_args (argv h) = Argparse.Parsed args.

(** ... the answer of the library to that call. *)
Definition answer (h : Host) (lx : Lx.Library) (args : Argparse.Namespace)
  : Lx.reply :=
  Lx.extract lx (loaded_environ h) (readable h) (request_of args).

(** [json.dumps(output, indent=2)] for a returned [result]. *)
Definition serialized (result : pyval) : res json :=
  out <- output result ;;
  encode out.

(** The library call returned [result]. *)
Definition returned (h : Host) (result : pyval) : Prop :=
  exists lx args,
    reaches_call h lx args /\ answer h lx args = Lx.Reply (Ok result).

(** A successful run: the call returned [result] and serializing it
    raised nothing. *)
Definition successful (h : Host) (result : pyval) : Prop :=
  returned h result /\ exists doc, serialized result = Ok doc.

(** The exception [e] is raised by the extraction call or while its
    result is serialized. *)
Definition raised (h : Host) (e : exn) : Prop :=
  exists lx args,
    reaches_call h lx args /\
    (answer h lx args = Lx.Reply (Raise e) \/
     exists result,
       answer h lx args = Lx.Reply (Ok result) /\ serialized result = Raise e).

(** The extraction sequence of a result: what [for e in
    result.extractions] goes through. *)
Definition extraction_items (result : pyval) : res (list pyval) :=
  result_extractions <- getattr result "extractions" ;;
  iter result_extractions.

(** The citations an item carries: what [for c in e.citations] goes
    through. *)
Definition citation_items (e : pyval) : res (list pyval) :=
  e_citations <- getattr e "citations" ;;
  iter e_citations.

(** The JSON entry written for an item, and for a citation. *)
Definition entry_for (e : pyval) (j : json) : Prop :=
  (d <- extraction_entry e ;; encode d) = Ok j.

Definition citation_for (c : pyval) (j : json) : Prop :=
  (d <- citation_entry c ;; encode d) = Ok j.

(** The JSON error object of the failure path. *)
Definition error_object (message kind : string) : json :=
  JObj [("error", JStr message); ("type", JStr kind)].

(** [needle in s] *)
Fixpoint contains (needle s : string) : bool :=
  String.prefix needle s
  || match s with
     | EmptyString => false
     | String _ rest => contains needle rest
     end.

(** A process that has written nothing and called nothing yet. *)
Definition started (env : list (string * string)) : Process :=
  {| environ := env; stdout := []; stderr := []; calls := [] |}.

(** A finished run, written out: environment, the two streams, the
    calls made, the status. *)
Definition finished (env : list (string * string)) (out err : list written)
           (cs : list Lx.Request) (status : Z) : Finished :=
  {| final := {| environ := env; stdout := out; stderr := err; calls := cs |};
     exit_status := status |}.

(** Every run ends in one of these ways. *)
Inductive run_view (h : Host) : Prop :=
| NotInstalled :
    langextract h = None ->
    run h = finished (os_environ h) []
              [JsonText None (JObj [("error", JStr not_installed)])] [] 1 ->
    run_view h
| NoDotenv lx :
    langextract h = Some lx ->
    dotenv_installed h = false ->
    run h = finished (os_environ h) []
              [Traceback (Exn "ModuleNotFoundError" "No module named 'dotenv'")]
              [] 1 ->
    run_view h
| DotenvRaises lx e :
    langextract h = Some lx ->
    dotenv_installed h = true ->
    dotenv_file h = Raise e ->
    run h = finished (os_environ h) [] [Traceback e] [] 1 ->
    run_view h
| Usage lx err :
    langextract h = Some lx ->
    loads_dotenv h ->
    Argparse.parse_args (argv h) = Argparse.UsageError err ->
    run h = finished (loaded_environ h) [] [UsageMessage err] [] 2 ->
    run_view h
| HelpShown lx :
    langextract h = Some lx ->
    loads_dotenv h ->
    Argparse.parse_args (argv h) = Argparse.HelpRequested ->
    run h = finished (loaded_environ h) [HelpMessage] [] [] 0 ->
    run_view h
| Failed lx args e :
    reaches_call h lx args ->
    raised h e ->
    run h = finished (loaded_environ h) []
              [JsonText None (error_object (exn_str e) (exn_type e))]
              [request_of args] 1 ->
    run_view h
| LibraryExits lx args code :
    reaches_call h lx args ->
    answer h lx args = Lx.SystemExit code ->
    run h = finished (loaded_environ h) [] (exit_text_of code) [request_of args]
              (exit_status_of code) ->
    run_view h
| LibraryEscapes lx args e :
    reaches_call h lx args ->
    answer h lx args = Lx.BaseException e ->
    run h = finished (loaded_environ h) [] [Traceback e] [request_of args] 1 ->
    run_view h
| Succeeded lx args result doc :
    reaches_call h lx args ->
    answer h lx args = Lx.Reply (Ok result) ->
    serialized result = Ok doc ->
    run h = finished (loaded_environ h) [JsonText (Some 2%nat) doc] []
              [request_of args] 0 ->
    run_view h.

(** A citation entry carries [c.start], [c.end] and [c.text] as
    [json.dumps] writes them; integer offsets are written as the same
    integers. *)
Definition passed_through (c : pyval) (j : json) : Prop :=
  exists c_start c_end c_text j_start j_end j_text,
    getattr c "start" = Ok c_start /\
    getattr c "end" = Ok c_end /\
    getattr c "text" = Ok c_text /\
    encode c_start = Ok j_start /\
    encode c_end = Ok j_end /\
    encode c_text = Ok j_text /\
    j = JObj [("start", j_start); ("end", j_end); ("text", j_text)] /\
    (forall a b, c_start = PInt a -> c_end = PInt b ->
                 j_start = JNum a /\ j_end = JNum b).

(** A serialized citation with integer offsets in order. *)
Definition ordered_span (j : json) : Prop :=
  exists a b t,
    j = JObj [("start", JNum a); ("end", JNum b); ("text", t)] /\ (a <= b)%Z.

(** The specification's wording of C6: the citations array of an item
    with N citations has N entries, each with integer [start <= end]. *)
Definition citations_ordered (h : Host) (result : pyval) : Prop :=
  successful h result ->
  exists items entries j_model j_usage,
    extraction_items result = Ok items /\
    out_of h = [JsonText (Some 2%nat)
                  (JObj [("extractions", JArr entries);
                         ("model", j_model); ("usage", j_usage)])] /\
    forall i e cs,
      nth_error items i = Some e ->
      citation_items e = Ok cs ->
      exists j js,
        nth_error entries i = Some j /\
        field "citations" j = Some (JArr js) /\
        List.length js = List.length cs /\
        Forall ordered_span js.

(** The exception [e] leaves the script uncaught: the second import
    fails, [load_dotenv()] raises, or the library raises something that
    is not an [Exception]. *)
Definition uncaught (h : Host) (e : exn) : Prop :=
  exists lx,
    langextract h = Some lx /\
    ((dotenv_installed h = false /\
      e = Exn "ModuleNotFoundError" "No module named 'dotenv'")
     \/ (dotenv_installed h = true /\ dotenv_file h = Raise e)
     \/ (exists args,
           reaches_call h lx args /\ answer h lx args = Lx.BaseException e)).


(* ================================================================== *)
(** ** Sample hosts *)
(* ================================================================== *)

Module Sample.

Definition citation (c_start c_end : Z) (c_text : string) : pyval :=
  PObj "Citation"
       [("start", PInt c_start); ("end", PInt c_end); ("text", PStr c_text)].

(** An item with two citations. *)
Definition alice : pyval :=
  PObj "Extraction"
       [("extraction_class", PStr "entity");
        ("extraction_text", PStr "Alice");
        ("attributes", PDict [("type", PStr "person")]);
        ("citations", PList [citation 0 5 "Alice"; citation 40 45 "Alice"])].

(** An item without the attribute [citations]. *)
Definition wonderland : pyval :=
  PObj "Extraction"
       [("extraction_class", PStr "place");
        ("extraction_text", PStr "Wonderland");
        ("attributes", PDict [])].

(** An item whose [citations] is [None]. *)
Definition rabbit : pyval :=
  PObj "Extraction"
       [("extraction_class", PStr "entity");
        ("extraction_text", PStr "Rabbit");
        ("attributes", PDict []);
        ("citations", PNone)].

(** An item whose only citation ends before it starts. *)
Definition hatter : pyval :=
  PObj "Extraction"
       [("extraction_class", PStr "entity");
        ("extraction_text", PStr "Hatter");
        ("attributes", PDict []);
        ("citations", PList [citation 5 3 "Ha"])].

Definition result_of (items : list pyval) : pyval :=
  PObj "AnnotatedDocument"
       [("extractions", PList items);
        ("model_id", PStr "gemini-2.0-flash");
        ("usage_metadata", PDict [("total_tokens", PInt 128)])].

(** A package whose [extract] always answers [r]. *)
Definition package (r : res pyval) : Lx.Library :=
  {| Lx.extract := fun _ _ _ => Lx.Reply r |}.

(** A host with the package and [dotenv] installed, no environment
    file and no readable file at all. *)
Definition host (r : res pyval) (args : list string) : Host :=
  {| langextract := Some (package r);
     argv := args;
     os_environ := [("GOOGLE_API_KEY", "secret")];
     dotenv_installed := true;
     dotenv_file := Ok [];
     readable := fun _ => false |}.

(** A host without the package. *)
Definition bare_host (args : list string) : Host :=
  {| langextract := None;
     argv := args;
     os_environ := [];
     dotenv_installed := true;
     dotenv_file := Ok [];
     readable := fun _ => false |}.


(** A host whose package leaves through [sys.exit(code)]. *)
Definition host_exiting (code : pyval) (args : list string) : Host :=
  {| langextract := Some {| Lx.extract := fun _ _ _ => Lx.SystemExit code |};
     argv := args;
     os_environ := [];
     dotenv_installed := true;
     dotenv_file := Ok [];
     readable := fun _ => false |}.

Definition command_line : list string :=
  ["--file"; "missing.txt"; "--prompt"; "x"].

Definition parsed_command_line : Argparse.Namespace :=
  {| Argparse.file := PStr "missing.txt"; Argparse.prompt := PStr "x";
     Argparse.model := PStr "gemini-2.0-flash"; Argparse.schema := None |}.

End Sample.

(* ================================================================== *)
(** ** Vocabulary of the further properties *)
(* ================================================================== *)

Definition dest_eqb (a b : Argparse.dest) : bool :=
  match a, b with
  | Argparse.Help, Argparse.Help
  | Argparse.File, Argparse.File
  | Argparse.Prompt, Argparse.Prompt
  | Argparse.Model, Argparse.Model
  | Argparse.Schema, Argparse.Schema => true
  | _, _ => false
  end.

(** The argument string [arg] is the option [d]: written in full,
    abbreviated, or with [=value] attached. *)
Definition names (d : Argparse.dest) (arg : string) : bool :=
  match Argparse.parse_optional arg with
  | Argparse.Opt d' _ _ => dest_eqb d d'
  | _ => false
  end.

(** Some argument of the command line is the option [d]. *)
Definition given (d : Argparse.dest) (argv : list string) : bool :=
  existsb (names d) argv.

(** The string written on the command line as the value of the option
    [d]: what is attached with [=] to the last argument that is the
    option, or else the argument that follows it. *)
Fixpoint written_for (d : Argparse.dest) (argv : list string) : option string :=
  match argv with
  | [] => None
  | arg :: rest =>
      match written_for d rest with
      | Some s => Some s
      | None =>
          match Argparse.parse_optional arg with
          | Argparse.Opt d' _ (Some explicit_arg) =>
              if dest_eqb d d' then Some explicit_arg else None
          | Argparse.Opt d' _ None =>
              if dest_eqb d d'
              then match rest with
                   | value :: _ => Some value
                   | [] => None
                   end
              else None
          | _ => None
          end
      end
  end.

(** The value of the option [d] while the namespace is filled, and in
    the namespace the parser returns. *)
Definition partial_field (d : Argparse.dest) (ns : Argparse.partial)
  : option pyval :=
  match d with
  | Argparse.File => Argparse.p_file ns
  | Argparse.Prompt => Argparse.p_prompt ns
  | Argparse.Model => Some (Argparse.p_model ns)
  | Argparse.Schema => Argparse.p_schema ns
  | Argparse.Help => None
  end.

Definition namespace_field (d : Argparse.dest) (a : Argparse.Namespace)
  : option pyval :=
  match d with
  | Argparse.File => Some (Argparse.file a)
  | Argparse.Prompt => Some (Argparse.prompt a)
  | Argparse.Model => Some (Argparse.model a)
  | Argparse.Schema => Argparse.schema a
  | Argparse.Help => None
  end.

(** The specification's wording of C8: every call has, as its document
    reference, the string written for [--file], unchanged. *)
Definition file_passed_literally (h : Host) : Prop :=
  forall f request,
    written_for Argparse.File (argv h) = Some f ->
    In request (calls_of h) ->
    Lx.text_or_documents request = PStr f.

(** [json.dumps] accepts the value. *)
Definition encodable (v : pyval) : Prop := exists j, encode v = Ok j.

(** The attribute [name] of [v] can be read and written as JSON. *)
Definition dumpable_attr (v : pyval) (name : string) : Prop :=
  exists a, getattr v name = Ok a /\ encodable a.

(** What the serializer needs of a citation, of an item and of a
    result: every attribute it reads is there and has a JSON form, and
    what it iterates can be iterated. *)
Definition well_formed_citation (c : pyval) : Prop :=
  dumpable_attr c "start" /\ dumpable_attr c "end" /\ dumpable_attr c "text".

Definition well_formed_item (e : pyval) : Prop :=
  dumpable_attr e "extraction_class" /\
  dumpable_attr e "extraction_text" /\
  dumpable_attr e "attributes" /\
  (hasattr e "citations" = false \/
   exists cs, citation_items e = Ok cs /\ Forall well_formed_citation cs).

Definition well_formed_result (result : pyval) : Prop :=
  (exists items,
      extraction_items result = Ok items /\ Forall well_formed_item items) /\
  dumpable_attr result "model_id" /\
  dumpable_attr result "usage_metadata".

(* ================================================================== *)
(** ** Facts about the operations *)
(* ================================================================== *)

Section Comprehension.
Context {A B : Type} (f : A -> res B).

Lemma comprehension_Forall2 (xs : list A) (ys : list B) :
  comprehension f xs = Ok ys -> Forall2 (fun x y => f x = Ok y) xs ys.
Proof.
  revert ys. induction xs as [|x rest IH]; simpl; intros ys H.
  - inversion H. constructor.
  - destruct (f x) as [y|e] eqn:Hx; simpl in H; [|discriminate].
    destruct (comprehension f rest) as [ys'|e] eqn:Hr; simpl in H; [|discriminate].
    inversion H; subst. constructor; auto.
Qed.

Lemma comprehension_raises (xs : list A) (x : A) (e : exn) :
  In x xs -> f x = Raise e -> exists e', comprehension f xs = Raise e'.
Proof.
  induction xs as [|x' rest IH]; simpl; intros Hin Hx; [contradiction|].
  destruct Hin as [->|Hin].
  - rewrite Hx. simpl. eauto.
  - destruct (f x') as [y|e0]; simpl; [|eauto].
    destruct (IH Hin Hx) as [e' ->]. simpl. eauto.
Qed.
End Comprehension.

Lemma Forall2_same_length {A B} (R : A -> B -> Prop) xs ys :
  Forall2 R xs ys -> List.length ys = List.length xs.
Proof. induction 1; simpl; congruence. Qed.

(** [json.dumps] of a list goes through it like a comprehension. *)
Lemma encode_list (xs : list pyval) :
  encode (PList xs) = (items <- comprehension encode xs ;; Ok (JArr items)).
Proof.
  simpl. f_equal.
  induction xs as [|x rest IH]; simpl; [reflexivity|].
  destruct (encode x); simpl; [|reflexivity].
  rewrite IH. reflexivity.
Qed.

Lemma encode_list_inv (xs : list pyval) (j : json) :
  encode (PList xs) = Ok j ->
  exists js, j = JArr js /\ Forall2 (fun x y => encode x = Ok y) xs js.
Proof.
  rewrite encode_list.
  destruct (comprehension encode xs) as [js|e] eqn:H; simpl; [|discriminate].
  intros E; inversion E; subst. eauto using comprehension_Forall2.
Qed.

(* ================================================================== *)
(** ** The ways a run ends *)
(* ================================================================== *)

(** The credential check reads the environment and changes nothing. *)
Lemma validate_api_key_pass (p : Process) : validate_api_key p = (p, Returns tt).
Proof.
  unfold validate_api_key, getenv, pbind, ret.
  destruct (_ && _); reflexivity.
Qed.

Ltac run_script :=
  unfold run, script, main, try_except, import_langextract, import_dotenv,
    parse_args, load_dotenv, lx_extract, print_json, print,
    sys_exit, lift, pbind, ret, finished, started, answer, serialized,
    loaded_environ, file_variables
    in *.

(** Without the package nothing but the installation hint is written. *)
Lemma run_not_installed (h : Host) :
  langextract h = None ->
  run h = finished (os_environ h) []
            [JsonText None (JObj [("error", JStr not_installed)])] [] 1.
Proof.
  intros Himp. run_script. rewrite Himp. reflexivity.
Qed.

(** Without [dotenv] the second import is not caught. *)
Lemma run_no_dotenv (h : Host) (lx : Lx.Library) :
  langextract h = Some lx ->
  dotenv_installed h = false ->
  run h = finished (os_environ h) []
            [Traceback (Exn "ModuleNotFoundError" "No module named 'dotenv'")]
            [] 1.
Proof.
  intros Himp Hno. run_script. rewrite Himp, Hno. reflexivity.
Qed.

Lemma run_dotenv_raises (h : Host) (lx : Lx.Library) (e : exn) :
  langextract h = Some lx ->
  dotenv_installed h = true ->
  dotenv_file h = Raise e ->
  run h = finished (os_environ h) [] [Traceback e] [] 1.
Proof.
  intros Himp Hinst Hfile. run_script. rewrite Himp, Hinst, Hfile. reflexivity.
Qed.

(** With both imports done and the environment file read, [main] starts
    in the merged environment. *)
Lemma script_loaded (h : Host) (lx : Lx.Library) :
  langextract h = Some lx ->
  loads_dotenv h ->
  script h (started (os_environ h)) = main lx h (started (loaded_environ h)).
Proof.
  intros Himp (Hinst & variables & Hfile).
  unfold script, try_except, import_langextract, import_dotenv, load_dotenv,
    pbind, ret, lift, started, loaded_environ, file_variables.
  rewrite Himp, Hinst, Hfile. reflexivity.
Qed.

Lemma run_loaded (h : Host) (lx : Lx.Library) :
  langextract h = Some lx ->
  loads_dotenv h ->
  run h
  = match main lx h (started (loaded_environ h)) with
    | (p, Returns _) => {| final := p; exit_status := 0 |}
    | (p, Exits code) =>
        {| final := {| environ := environ p; stdout := stdout p;
                       stderr := stderr p ++ exit_text_of code;
                       calls := calls p |};
           exit_status := exit_status_of code |}
    | (p, Raises e) | (p, Escapes e) =>
        {| final := {| environ := environ p; stdout := stdout p;
                       stderr := stderr p ++ [Traceback e]; calls := calls p |};
           exit_status := 1 |}
    end.
Proof.
  intros Himp Hload. unfold run.
  change {| environ := os_environ h; stdout := []; stderr := []; calls := [] |}
    with (started (os_environ h)).
  rewrite (script_loaded h lx Himp Hload). reflexivity.
Qed.

Ltac run_main :=
  unfold main, try_except, parse_args, lx_extract, print_json, print,
    sys_exit, lift, pbind, ret, finished, started, answer, serialized in *.

Lemma run_usage_error (h : Host) (lx : Lx.Library) (err : Argparse.usage_error) :
  langextract h = Some lx ->
  loads_dotenv h ->
  Argparse.parse_args (argv h) = Argparse.UsageError err ->
  run h = finished (loaded_environ h) [] [UsageMessage err] [] 2.
Proof.
  intros Himp Hload Hargs. rewrite (run_loaded h lx Himp Hload).
  run_main. rewrite Hargs. reflexivity.
Qed.

Lemma run_help (h : Host) (lx : Lx.Library) :
  langextract h = Some lx ->
  loads_dotenv h ->
  Argparse.parse_args (argv h) = Argparse.HelpRequested ->
  run h = finished (loaded_environ h) [HelpMessage] [] [] 0.
Proof.
  intros Himp Hload Hargs. rewrite (run_loaded h lx Himp Hload).
  run_main. rewrite Hargs. reflexivity.
Qed.

Lemma run_call_raises (h : Host) lx args (e : exn) :
  reaches_call h lx args ->
  answer h lx args = Lx.Reply (Raise e) ->
  run h = finished (loaded_environ h) []
            [JsonText None (error_object (exn_str e) (exn_type e))]
            [request_of args] 1.
Proof.
  intros (Himp & Hload & Hargs) Hans. rewrite (run_loaded h lx Himp Hload).
  run_main. rewrite Hargs. rewrite validate_api_key_pass. simpl.
  rewrite Hans. reflexivity.
Qed.

Lemma run_call_exits (h : Host) lx args (code : pyval) :
  reaches_call h lx args ->
  answer h lx args = Lx.SystemExit code ->
  run h = finished (loaded_environ h) [] (exit_text_of code) [request_of args]
            (exit_status_of code).
Proof.
  intros (Himp & Hload & Hargs) Hans. rewrite (run_loaded h lx Himp Hload).
  run_main. rewrite Hargs. rewrite validate_api_key_pass. simpl.
  rewrite Hans. reflexivity.
Qed.

Lemma run_call_escapes (h : Host) lx args (e : exn) :
  reaches_call h lx args ->
  answer h lx args = Lx.BaseException e ->
  run h = finished (loaded_environ h) [] [Traceback e] [request_of args] 1.
Proof.
  intros (Himp & Hload & Hargs) Hans. rewrite (run_loaded h lx Himp Hload).
  run_main. rewrite Hargs. rewrite validate_api_key_pass. simpl.
  rewrite Hans. reflexivity.
Qed.

(** The statuses of [sys.exit] in the library, as the interpreter
    reports them. *)
Example exit_seven :
  exit_status (run (Sample.host_exiting (PInt 7) Sample.command_line)) = 7%Z.
Proof. reflexivity. Qed.

Example exit_wraps :
  exit_status (run (Sample.host_exiting (PInt 256) Sample.command_line)) = 0%Z /\
  exit_status (run (Sample.host_exiting (PInt (-1)) Sample.command_line)) = 255%Z /\
  exit_status (run (Sample.host_exiting (PInt (2 ^ 32 + 5)) Sample.command_line))
  = 5%Z.
Proof. repeat split; reflexivity. Qed.

Example exit_out_of_range :
  exit_status (run (Sample.host_exiting (PInt (2 ^ 64 + 3)) Sample.command_line))
  = 255%Z /\
  exit_status (run (Sample.host_exiting (PInt (- 2 ^ 63 - 1)) Sample.command_line))
  = 255%Z.
Proof. split; reflexivity. Qed.

Example exit_with_text :
  run (Sample.host_exiting (PStr "bye") Sample.command_line)
  = finished [] [] [ExitText (PStr "bye")]
      [request_of Sample.parsed_command_line] 1.
Proof. reflexivity. Qed.

Example exit_none :
  run (Sample.host_exiting PNone Sample.command_line)
  = finished [] [] [] [request_of Sample.parsed_command_line] 0.
Proof. reflexivity. Qed.

Lemma run_serialize_raises (h : Host) lx args (result : pyval) (e : exn) :
  reaches_call h lx args ->
  answer h lx args = Lx.Reply (Ok result) ->
  serialized result = Raise e ->
  run h = finished (loaded_environ h) []
            [JsonText None (error_object (exn_str e) (exn_type e))]
            [request_of args] 1.
Proof.
  intros (Himp & Hload & Hargs) Hans Hser. rewrite (run_loaded h lx Himp Hload).
  run_main. rewrite Hargs. rewrite validate_api_key_pass. simpl.
  rewrite Hans.
  destruct (output result) as [out|e0]; simpl in *.
  - rewrite Hser. reflexivity.
  - inversion Hser; subst. reflexivity.
Qed.

Lemma run_success (h : Host) lx args (result : pyval) (doc : json) :
  reaches_call h lx args ->
  answer h lx args = Lx.Reply (Ok result) ->
  serialized result = Ok doc ->
  run h = finished (loaded_environ h) [JsonText (Some 2%nat) doc] []
            [request_of args] 0.
Proof.
  intros (Himp & Hload & Hargs) Hans Hser. rewrite (run_loaded h lx Himp Hload).
  run_main. rewrite Hargs. rewrite validate_api_key_pass. simpl.
  rewrite Hans.
  destruct (output result) as [out|e0]; simpl in *; [|discriminate].
  rewrite Hser. reflexivity.
Qed.

Lemma run_cases (h : Host) : run_view h.
Proof.
  destruct (langextract h) as [lx|] eqn:Himp.
  2: { apply NotInstalled; auto using run_not_installed. }
  destruct (dotenv_installed h) eqn:Hinst.
  2: { eapply NoDotenv; eauto using run_no_dotenv. }
  destruct (dotenv_file h) as [variables|e] eqn:Hfile.
  2: { eapply DotenvRaises; eauto using run_dotenv_raises. }
  assert (Hload : loads_dotenv h) by (split; eauto).
  destruct (Argparse.parse_args (argv h)) as [args| |err] eqn:Hargs.
  - assert (Hreach : reaches_call h lx args)
      by (split; [assumption | split; assumption]).
    destruct (answer h lx args) as [[result|e]|code|e] eqn:Hans.
    + destruct (serialized result) as [doc|e] eqn:Hser.
      * eapply Succeeded; eauto using run_success.
      * eapply Failed; eauto using run_serialize_raises.
        exists lx, args. split; [assumption|]. right. eauto.
    + eapply Failed; eauto using run_call_raises.
      exists lx, args. split; [assumption|]. left. assumption.
    + eapply LibraryExits; eauto using run_call_exits.
    + eapply LibraryEscapes; eauto using run_call_escapes.
  - eapply HelpShown; eauto using run_help.
  - eapply Usage; eauto using run_usage_error.
Qed.

(* ================================================================== *)
(** ** The shape of the serialized result *)
(* ================================================================== *)

(** [json.dumps] of a dictionary writes its items in order. *)
Lemma encode_dict (kvs : list (string * pyval)) :
  encode (PDict kvs)
  = (fields <- comprehension
                 (fun kv => j <- encode (snd kv) ;; Ok (fst kv, j)) kvs ;;
     Ok (JObj fields)).
Proof.
  simpl. f_equal.
  induction kvs as [|[k v] rest IH]; simpl; [reflexivity|].
  destruct (encode v); simpl; [|reflexivity].
  rewrite IH. reflexivity.
Qed.

(** A sequence of steps that returns: every step returned. *)
Ltac bind_inv :=
  repeat match goal with
         | H : bind ?m _ = Ok _ |- _ =>
             let E := fresh "E" in
             destruct m eqn:E; cbn [bind] in H; [|discriminate H]
         | H : Ok _ = Ok _ |- _ => inversion H; subst; clear H
         end.

(** The entry of one citation. *)
Lemma citation_for_shape (c : pyval) (j : json) :
  citation_for c j ->
  exists c_start c_end c_text j_start j_end j_text,
    getattr c "start" = Ok c_start /\
    getattr c "end" = Ok c_end /\
    getattr c "text" = Ok c_text /\
    encode c_start = Ok j_start /\
    encode c_end = Ok j_end /\
    encode c_text = Ok j_text /\
    j = JObj [("start", j_start); ("end", j_end); ("text", j_text)].
Proof.
  unfold citation_for, citation_entry. intros H.
  bind_inv.
  match goal with
  | E : encode (PDict _) = Ok _ |- _ =>
      rewrite encode_dict in E; cbn [comprehension fst snd] in E
  end.
  bind_inv. do 6 eexists. repeat split; eauto.
Qed.

(** The entry of one item. *)
Lemma entry_for_shape (e : pyval) (j : json) :
  entry_for e j ->
  exists e_class e_text e_attributes e_citations j_class j_text j_attributes j_citations,
    getattr e "extraction_class" = Ok e_class /\
    getattr e "extraction_text" = Ok e_text /\
    getattr e "attributes" = Ok e_attributes /\
    citations_of e = Ok e_citations /\
    encode e_class = Ok j_class /\
    encode e_text = Ok j_text /\
    encode e_attributes = Ok j_attributes /\
    encode e_citations = Ok j_citations /\
    j = JObj [("class", j_class); ("text", j_text);
              ("attributes", j_attributes); ("citations", j_citations)].
Proof.
  unfold entry_for, extraction_entry. intros H.
  bind_inv.
  match goal with
  | E : encode (PDict _) = Ok _ |- _ =>
      rewrite encode_dict in E; cbn [comprehension fst snd] in E
  end.
  bind_inv. do 8 eexists. repeat split; eauto.
Qed.

Lemma Forall2_entries {A} (f : A -> res pyval) (xs : list A) ds js :
  Forall2 (fun x d => f x = Ok d) xs ds ->
  Forall2 (fun d j => encode d = Ok j) ds js ->
  Forall2 (fun x j => (d <- f x ;; encode d) = Ok j) xs js.
Proof.
  intros H. revert js. induction H as [|x d xs ds Hx _ IH]; intros js Hj;
    inversion Hj; subst; constructor.
  - rewrite Hx. assumption.
  - auto.
Qed.

(** The document of a result that serializes. *)
Lemma serialized_shape (result : pyval) (doc : json) :
  serialized result = Ok doc ->
  exists items entries m u j_model j_usage,
    extraction_items result = Ok items /\
    getattr result "model_id" = Ok m /\
    getattr result "usage_metadata" = Ok u /\
    encode m = Ok j_model /\
    encode u = Ok j_usage /\
    Forall2 entry_for items entries /\
    doc = JObj [("extractions", JArr entries);
                ("model", j_model); ("usage", j_usage)].
Proof.
  unfold serialized, output, extraction_items. intros H.
  bind_inv.
  match goal with
  | E : encode (PDict _) = Ok _ |- _ =>
      rewrite encode_dict in E; cbn [comprehension fst snd] in E
  end.
  bind_inv.
  match goal with
  | E : encode (PList _) = Ok _ |- _ =>
      apply encode_list_inv in E; destruct E as (js & -> & Hjs)
  end.
  match goal with
  | E : comprehension extraction_entry _ = Ok _ |- _ =>
      apply comprehension_Forall2 in E
  end.
  do 6 eexists. repeat split; eauto.
  unfold entry_for. eapply Forall2_entries; eauto.
Qed.

(** The sample command line reaches the call. *)
Ltac reaches_by_computation :=
  split; [reflexivity
         | split; [split; [reflexivity | eexists; reflexivity] | reflexivity]].

Lemma sample_reaches (r : res pyval) :
  reaches_call (Sample.host r Sample.command_line) (Sample.package r)
               Sample.parsed_command_line.
Proof. reaches_by_computation. Defined.

Lemma sample_returns (result : pyval) :
  returned (Sample.host (Ok result) Sample.command_line) result.
Proof.
  exists (Sample.package (Ok result)), Sample.parsed_command_line.
  split; [apply sample_reaches | reflexivity].
Defined.

(* ================================================================== *)
(** ** The success path *)
(* ================================================================== *)

(** Among the runs in which the call returned, the successful ones are
    those that end with status 0. *)
Lemma successful_iff_status_zero (h : Host) (result : pyval) :
  returned h result ->
  (successful h result <-> exit_status (run h) = 0%Z).
Proof.
  intros Hret. pose proof Hret as (lx & args & Hreach & Hans).
  split.
  - intros [_ [doc Hser]].
    rewrite (run_success h lx args result doc Hreach Hans Hser). reflexivity.
  - intros Hzero. split; [assumption|].
    destruct (serialized result) as [doc|e] eqn:Hser; [eauto|].
    rewrite (run_serialize_raises h lx args result e Hreach Hans Hser) in Hzero.
    discriminate.
Qed.

(** What a successful run leaves behind. *)
Lemma successful_run (h : Host) (result : pyval) :
  successful h result ->
  exists lx args doc,
    reaches_call h lx args /\
    serialized result = Ok doc /\
    run h = finished (loaded_environ h) [JsonText (Some 2%nat) doc] []
              [request_of args] 0.
Proof.
  intros [(lx & args & Hreach & Hans) [doc Hser]].
  exists lx, args, doc. eauto using run_success.
Qed.

(** C1: in a successful run the [extractions] array of the document on
    standard output has one entry per item of the extraction sequence
    the library returned, the i-th entry being the serialization of
    the i-th item: same length, same order, nothing dropped, merged or
    moved. *)
Theorem extractions_same_length_and_order (h : Host) (result : pyval) :
  successful h result ->
  exists items entries j_model j_usage,
    extraction_items result = Ok items /\
    out_of h = [JsonText (Some 2%nat)
                  (JObj [("extractions", JArr entries);
                         ("model", j_model); ("usage", j_usage)])] /\
    List.length entries = List.length items /\
    Forall2 entry_for items entries.
Proof.
  intros Hs. destruct (successful_run h result Hs) as (lx & args & doc & _ & Hser & Hrun).
  destruct (serialized_shape result doc Hser)
    as (items & entries & m & u & jm & ju & Hitems & _ & _ & _ & _ & Hall & ->).
  exists items, entries, jm, ju.
  unfold out_of. rewrite Hrun. simpl.
  repeat split; eauto using Forall2_same_length.
Qed.

Lemma extractions_same_length_and_order_witness :
  exists items entries j_model j_usage,
    extraction_items (Sample.result_of [Sample.alice; Sample.wonderland])
    = Ok items /\
    out_of (Sample.host (Ok (Sample.result_of [Sample.alice; Sample.wonderland]))
                        Sample.command_line)
    = [JsonText (Some 2%nat)
         (JObj [("extractions", JArr entries);
                ("model", j_model); ("usage", j_usage)])] /\
    List.length entries = List.length items /\
    Forall2 entry_for items entries.
Proof.
  apply (extractions_same_length_and_order
           (Sample.host (Ok (Sample.result_of [Sample.alice; Sample.wonderland]))
                        Sample.command_line)
           (Sample.result_of [Sample.alice; Sample.wonderland])).
  split.
  - apply sample_returns.
  - eexists. vm_compute. reflexivity.
Defined.

Lemma Forall2_Forall_right {A B} (R : A -> B -> Prop) (P : B -> Prop) xs ys :
  Forall2 R xs ys -> (forall x y, R x y -> P y) -> Forall P ys.
Proof. induction 1; intros HP; constructor; eauto. Qed.

Lemma Forall2_Forall_left {A B} (R : A -> B -> Prop) (P : A -> Prop) xs ys :
  Forall2 R xs ys -> (forall x y, R x y -> P x) -> Forall P xs.
Proof. induction 1; intros HP; constructor; eauto. Qed.

Lemma Forall2_nth_right {A B} (R : A -> B -> Prop) xs ys :
  Forall2 R xs ys ->
  forall i x, nth_error xs i = Some x ->
              exists y, nth_error ys i = Some y /\ R x y.
Proof.
  induction 1 as [|x0 y0 xs ys H0 _ IH]; intros [|i] x Hx;
    simpl in *; try discriminate.
  - inversion Hx; subst. eauto.
  - eauto.
Qed.

(** C2: a successful run prints one document on standard output, with
    [indent=2]: an object with exactly the members [extractions],
    [model] and [usage], in which every entry of [extractions] has
    exactly the members [class], [text], [attributes], [citations],
    [model] is [result.model_id] (a string stays that string) and
    [usage] is [result.usage_metadata] as [json.dumps] writes it.
    Nothing is written on standard error and the status is 0. *)
Theorem success_document (h : Host) (result : pyval) :
  successful h result ->
  exists entries m u j_model j_usage,
    out_of h = [JsonText (Some 2%nat)
                  (JObj [("extractions", JArr entries);
                         ("model", j_model); ("usage", j_usage)])] /\
    Forall (fun j => field_names j
                     = Some ["class"; "text"; "attributes"; "citations"])
           entries /\
    getattr result "model_id" = Ok m /\
    encode m = Ok j_model /\
    (forall s, m = PStr s -> j_model = JStr s) /\
    getattr result "usage_metadata" = Ok u /\
    encode u = Ok j_usage /\
    err_of h = [] /\
    exit_status (run h) = 0%Z.
Proof.
  intros Hs.
  destruct (successful_run h result Hs) as (lx & args & doc & _ & Hser & Hrun).
  destruct (serialized_shape result doc Hser)
    as (items & entries & m & u & jm & ju & _ & Hm & Hu & Hjm & Hju & Hall & ->).
  exists entries, m, u, jm, ju.
  unfold out_of, err_of. rewrite Hrun. simpl.
  repeat split; auto.
  - eapply Forall2_Forall_right; [exact Hall|].
    intros e j Hj. apply entry_for_shape in Hj.
    destruct Hj as (? & ? & ? & ? & ? & ? & ? & ? & _ & _ & _ & _ & _ & _ & _ & _ & ->).
    reflexivity.
  - intros s ->. simpl in Hjm. congruence.
Qed.

Lemma success_document_witness :
  exists entries m u j_model j_usage,
    out_of (Sample.host (Ok (Sample.result_of [Sample.alice; Sample.wonderland]))
                        Sample.command_line)
    = [JsonText (Some 2%nat)
         (JObj [("extractions", JArr entries);
                ("model", j_model); ("usage", j_usage)])] /\
    Forall (fun j => field_names j
                     = Some ["class"; "text"; "attributes"; "citations"])
           entries /\
    getattr (Sample.result_of [Sample.alice; Sample.wonderland]) "model_id"
    = Ok m /\
    encode m = Ok j_model /\
    (forall s, m = PStr s -> j_model = JStr s) /\
    getattr (Sample.result_of [Sample.alice; Sample.wonderland]) "usage_metadata"
    = Ok u /\
    encode u = Ok j_usage /\
    err_of (Sample.host (Ok (Sample.result_of [Sample.alice; Sample.wonderland]))
                        Sample.command_line) = [] /\
    exit_status
      (run (Sample.host (Ok (Sample.result_of [Sample.alice; Sample.wonderland]))
                        Sample.command_line)) = 0%Z.
Proof.
  apply (success_document
           (Sample.host (Ok (Sample.result_of [Sample.alice; Sample.wonderland]))
                        Sample.command_line)
           (Sample.result_of [Sample.alice; Sample.wonderland])).
  split.
  - apply sample_returns.
  - eexists. vm_compute. reflexivity.
Defined.

(* ================================================================== *)
(** ** The failure path *)
(* ================================================================== *)

(** C3: an exception raised by the extraction call, or while the
    result is serialized, is reported on standard error as the JSON
    object [{"error": str(e), "type": type(e).__name__}], printed
    without indentation; nothing is written on standard output and
    the status is 1. *)
Theorem exception_reported (h : Host) (e : exn) :
  raised h e ->
  err_of h = [JsonText None
                (JObj [("error", JStr (exn_str e)); ("type", JStr (exn_type e))])] /\
  out_of h = [] /\
  exit_status (run h) = 1%Z.
Proof.
  intros (lx & args & Hreach & [Hans | (result & Hans & Hser)]);
    unfold err_of, out_of.
  - rewrite (run_call_raises h lx args e Hreach Hans). simpl. auto.
  - rewrite (run_serialize_raises h lx args result e Hreach Hans Hser).
    simpl. auto.
Qed.

Lemma exception_reported_witness :
  err_of (Sample.host (Raise (Exn "RuntimeError" "rate limited"))
                      Sample.command_line)
  = [JsonText None
       (JObj [("error", JStr "rate limited"); ("type", JStr "RuntimeError")])] /\
  out_of (Sample.host (Raise (Exn "RuntimeError" "rate limited"))
                      Sample.command_line) = [] /\
  exit_status (run (Sample.host (Raise (Exn "RuntimeError" "rate limited"))
                                Sample.command_line)) = 1%Z.
Proof.
  apply (exception_reported
           (Sample.host (Raise (Exn "RuntimeError" "rate limited"))
                        Sample.command_line)
           (Exn "RuntimeError" "rate limited")).
  exists (Sample.package (Raise (Exn "RuntimeError" "rate limited"))),
    Sample.parsed_command_line.
  split; [apply sample_reaches | left; reflexivity].
Defined.

(* ================================================================== *)
(** ** Citations *)
(* ================================================================== *)

(** An item without the attribute gets the empty list. *)
Lemma citations_of_absent (e : pyval) :
  hasattr e "citations" = false -> citations_of e = Ok (PList []).
Proof. unfold citations_of. intros ->. reflexivity. Qed.

Lemma entry_without_citations (e : pyval) (j : json) :
  entry_for e j ->
  hasattr e "citations" = false ->
  field "citations" j = Some (JArr []).
Proof.
  intros Hj Habs. apply entry_for_shape in Hj.
  destruct Hj as (c & t & a & cs & jc & jt & ja & jcs
                  & _ & _ & _ & Hcs & _ & _ & _ & Hjcs & ->).
  rewrite (citations_of_absent e Habs) in Hcs. inversion Hcs; subst.
  simpl in Hjcs. inversion Hjcs; subst. reflexivity.
Qed.

(** C5: in a successful run, the entry of every item that has no
    attribute [citations] has the member [citations], and it is the
    empty array: not [null], not missing. *)
Theorem absent_citations_empty_array (h : Host) (result : pyval) :
  successful h result ->
  exists items entries j_model j_usage,
    extraction_items result = Ok items /\
    out_of h = [JsonText (Some 2%nat)
                  (JObj [("extractions", JArr entries);
                         ("model", j_model); ("usage", j_usage)])] /\
    forall i e,
      nth_error items i = Some e ->
      hasattr e "citations" = false ->
      exists j, nth_error entries i = Some j /\
                field "citations" j = Some (JArr []).
Proof.
  intros Hs.
  destruct (successful_run h result Hs) as (lx & args & doc & _ & Hser & Hrun).
  destruct (serialized_shape result doc Hser)
    as (items & entries & m & u & jm & ju & Hitems & _ & _ & _ & _ & Hall & ->).
  exists items, entries, jm, ju.
  unfold out_of. rewrite Hrun. simpl.
  repeat split; auto.
  intros i e Hi Habs.
  destruct (Forall2_nth_right _ _ _ Hall i e Hi) as (j & Hj & He).
  exists j. split; [assumption|].
  apply (entry_without_citations e j He Habs).
Qed.

Lemma absent_citations_empty_array_witness :
  exists items entries j_model j_usage,
    extraction_items (Sample.result_of [Sample.alice; Sample.wonderland])
    = Ok items /\
    out_of (Sample.host (Ok (Sample.result_of [Sample.alice; Sample.wonderland]))
                        Sample.command_line)
    = [JsonText (Some 2%nat)
         (JObj [("extractions", JArr entries);
                ("model", j_model); ("usage", j_usage)])] /\
    forall i e,
      nth_error items i = Some e ->
      hasattr e "citations" = false ->
      exists j, nth_error entries i = Some j /\
                field "citations" j = Some (JArr []).
Proof.
  apply (absent_citations_empty_array
           (Sample.host (Ok (Sample.result_of [Sample.alice; Sample.wonderland]))
                        Sample.command_line)
           (Sample.result_of [Sample.alice; Sample.wonderland])).
  split.
  - apply sample_returns.
  - eexists. vm_compute. reflexivity.
Defined.

(** An integer that is written is written as itself. *)
Lemma encode_int_inv (z : Z) (j : json) :
  encode (PInt z) = Ok j -> j = JNum z.
Proof.
  cbn [encode]. destruct (Z.abs z <? int_str_limit)%Z; congruence.
Qed.

Lemma citation_for_passed_through (c : pyval) (j : json) :
  citation_for c j -> passed_through c j.
Proof.
  intros H. apply citation_for_shape in H.
  destruct H as (s & e & t & js & je & jt & Hs & He & Ht & Hjs & Hje & Hjt & ->).
  exists s, e, t, js, je, jt. repeat split; auto.
  - subst. apply encode_int_inv. assumption.
  - subst. apply encode_int_inv. assumption.
Qed.

Lemma entry_with_citations (e : pyval) (j : json) (cs : list pyval) :
  entry_for e j ->
  citation_items e = Ok cs ->
  exists js, field "citations" j = Some (JArr js) /\
             Forall2 citation_for cs js.
Proof.
  intros Hj Hcs. apply entry_for_shape in Hj.
  destruct Hj as (c & t & a & ecs & jc & jt & ja & jcs
                  & _ & _ & _ & Hof & _ & _ & _ & Hjcs & ->).
  unfold citation_items in Hcs. unfold citations_of, hasattr in Hof.
  bind_inv.
  match goal with
  | H1 : iter ?v = Ok ?xs, H2 : iter ?v = Ok cs |- _ =>
      rewrite H1 in H2; inversion H2; subst; clear H2
  end.
  apply encode_list_inv in Hjcs. destruct Hjcs as (js & -> & Hjs).
  exists js. split; [reflexivity|].
  unfold citation_for. eapply Forall2_entries; eauto using comprehension_Forall2.
Qed.

(** C6, refuted as written: the library returns one item whose single
    citation has [start = 5] and [end = 3]; the run succeeds and the
    entry carries 5 and 3 as they are. *)
Lemma citations_ordered_counterexample :
  ~ citations_ordered
      (Sample.host (Ok (Sample.result_of [Sample.hatter])) Sample.command_line)
      (Sample.result_of [Sample.hatter]).
Proof.
  intros H.
  destruct H as (items & entries & jm & ju & Hitems & Hout & Hall).
  - split; [apply sample_returns | eexists; vm_compute; reflexivity].
  - vm_compute in Hitems. inversion Hitems; subst; clear Hitems.
    vm_compute in Hout. inversion Hout; subst; clear Hout.
    destruct (Hall 0%nat _ [Sample.citation 5 3 "Ha"] eq_refl eq_refl)
      as (j & js & Hj & Hf & _ & Hord).
    simpl in Hj. inversion Hj; subst; clear Hj.
    vm_compute in Hf. inversion Hf; subst; clear Hf.
    inversion Hord as [|? ? (a & b & t & Heq & Hle) _]; subst.
    inversion Heq; subst. lia.
Qed.

(** C6, amended: in a successful run, the [citations] array of an item
    that carries N citations has exactly N entries, in the order of the
    citations; each is an object with exactly the members [start],
    [end] and [text], holding the citation's own [start], [end] and
    [text]; integer offsets are written as the same integers, so
    [start <= end] holds in the output exactly when it holds in the
    citation the library returned. *)
Theorem citations_passed_through (h : Host) (result : pyval) :
  successful h result ->
  exists items entries j_model j_usage,
    extraction_items result = Ok items /\
    out_of h = [JsonText (Some 2%nat)
                  (JObj [("extractions", JArr entries);
                         ("model", j_model); ("usage", j_usage)])] /\
    forall i e cs,
      nth_error items i = Some e ->
      citation_items e = Ok cs ->
      exists j js,
        nth_error entries i = Some j /\
        field "citations" j = Some (JArr js) /\
        List.length js = List.length cs /\
        Forall2 passed_through cs js.
Proof.
  intros Hs.
  destruct (successful_run h result Hs) as (lx & args & doc & _ & Hser & Hrun).
  destruct (serialized_shape result doc Hser)
    as (items & entries & m & u & jm & ju & Hitems & _ & _ & _ & _ & Hall & ->).
  exists items, entries, jm, ju.
  unfold out_of. rewrite Hrun. simpl.
  repeat split; auto.
  intros i e cs Hi Hcs.
  destruct (Forall2_nth_right _ _ _ Hall i e Hi) as (j & Hj & He).
  destruct (entry_with_citations e j cs He Hcs) as (js & Hf & Hjs).
  exists j, js. repeat split; auto.
  - eapply Forall2_same_length; eassumption.
  - eapply Forall2_impl; [|eassumption]. apply citation_for_passed_through.
Qed.

Lemma citations_passed_through_witness :
  exists items entries j_model j_usage,
    extraction_items (Sample.result_of [Sample.alice; Sample.hatter])
    = Ok items /\
    out_of (Sample.host (Ok (Sample.result_of [Sample.alice; Sample.hatter]))
                        Sample.command_line)
    = [JsonText (Some 2%nat)
         (JObj [("extractions", JArr entries);
                ("model", j_model); ("usage", j_usage)])] /\
    forall i e cs,
      nth_error items i = Some e ->
      citation_items e = Ok cs ->
      exists j js,
        nth_error entries i = Some j /\
        field "citations" j = Some (JArr js) /\
        List.length js = List.length cs /\
        Forall2 passed_through cs js.
Proof.
  apply (citations_passed_through
           (Sample.host (Ok (Sample.result_of [Sample.alice; Sample.hatter]))
                        Sample.command_line)
           (Sample.result_of [Sample.alice; Sample.hatter])).
  split.
  - apply sample_returns.
  - eexists. vm_compute. reflexivity.
Defined.

(** An item whose [citations] cannot be iterated is not serialized. *)
Lemma citations_of_not_iterable (e v : pyval) (err : exn) :
  getattr e "citations" = Ok v ->
  iter v = Raise err ->
  citations_of e = Raise err.
Proof.
  intros Hv Hiter. unfold citations_of, hasattr. rewrite Hv. simpl.
  rewrite Hiter. reflexivity.
Qed.

Lemma extraction_entry_not_iterable (e v : pyval) (err : exn) :
  getattr e "citations" = Ok v ->
  iter v = Raise err ->
  exists err', extraction_entry e = Raise err'.
Proof.
  intros Hv Hiter. unfold extraction_entry.
  rewrite (citations_of_not_iterable e v err Hv Hiter).
  destruct (getattr e "extraction_class"); simpl; eauto.
  destruct (getattr e "extraction_text"); simpl; eauto.
  destruct (getattr e "attributes"); simpl; eauto.
Qed.

(** C10: when some item of the returned sequence has an attribute
    [citations] that cannot be iterated ([None], a number, an object),
    no empty array is put in its place: evaluating its citations
    raises, the run ends on the failure path with one JSON error
    object on standard error and status 1, and nothing is written on
    standard output. *)
Theorem uniterable_citations_fail
        (h : Host) (result : pyval) (items : list pyval) (e v : pyval) (err : exn) :
  returned h result ->
  extraction_items result = Ok items ->
  In e items ->
  getattr e "citations" = Ok v ->
  iter v = Raise err ->
  citations_of e = Raise err /\
  out_of h = [] /\
  (exists message kind,
      err_of h = [JsonText None
                    (JObj [("error", JStr message); ("type", JStr kind)])]) /\
  exit_status (run h) = 1%Z.
Proof.
  intros (lx & args & Hreach & Hans) Hitems Hin Hv Hiter.
  split; [apply (citations_of_not_iterable e v err Hv Hiter)|].
  destruct (extraction_entry_not_iterable e v err Hv Hiter) as [err' Hentry].
  destruct (comprehension_raises extraction_entry items e err' Hin Hentry)
    as [err'' Hcomp].
  assert (Hser : serialized result = Raise err'').
  { unfold serialized, output. unfold extraction_items in Hitems.
    bind_inv. cbn [bind]. rewrite Hitems. cbn [bind]. rewrite Hcomp.
    reflexivity. }
  unfold out_of, err_of.
  rewrite (run_serialize_raises h lx args result err'' Hreach Hans Hser).
  simpl. split; [reflexivity|].
  split; [|reflexivity].
  exists (exn_str err''), (exn_type err''). reflexivity.
Qed.

Lemma uniterable_citations_fail_witness :
  citations_of Sample.rabbit
  = Raise (TypeError "'NoneType' object is not iterable") /\
  out_of (Sample.host (Ok (Sample.result_of [Sample.alice; Sample.rabbit]))
                      Sample.command_line) = [] /\
  (exists message kind,
      err_of (Sample.host (Ok (Sample.result_of [Sample.alice; Sample.rabbit]))
                          Sample.command_line)
      = [JsonText None
           (JObj [("error", JStr message); ("type", JStr kind)])]) /\
  exit_status
    (run (Sample.host (Ok (Sample.result_of [Sample.alice; Sample.rabbit]))
                      Sample.command_line)) = 1%Z.
Proof.
  apply (uniterable_citations_fail
           (Sample.host (Ok (Sample.result_of [Sample.alice; Sample.rabbit]))
                        Sample.command_line)
           (Sample.result_of [Sample.alice; Sample.rabbit])
           [Sample.alice; Sample.rabbit] Sample.rabbit PNone
           (TypeError "'NoneType' object is not iterable")).
  - apply sample_returns.
  - reflexivity.
  - simpl. auto.
  - reflexivity.
  - reflexivity.
Defined.

(* ================================================================== *)
(** ** Before the call: import, arguments, and what is passed on *)
(* ================================================================== *)

(** C7: when [langextract] cannot be imported, the run ends with status
    1 and a single JSON object on standard error whose member [error]
    tells how to install it ([pip install ...]).  This happens before
    the command line is looked at: the outcome is the same for every
    [argv], the environment file is not loaded, no usage message and
    no help text is written, and the library is not called. *)
Theorem missing_package_reported (h : Host) :
  langextract h = None ->
  err_of h = [JsonText None (JObj [("error", JStr not_installed)])] /\
  contains "pip install" not_installed = true /\
  out_of h = [] /\
  calls_of h = [] /\
  environ (final (run h)) = os_environ h /\
  exit_status (run h) = 1%Z /\
  (forall h', langextract h' = None -> os_environ h' = os_environ h ->
              run h' = run h).
Proof.
  intros Himp. unfold err_of, out_of, calls_of.
  rewrite (run_not_installed h Himp). simpl.
  repeat split; auto.
  intros h' Himp' Henv. rewrite (run_not_installed h' Himp'), Henv.
  reflexivity.
Qed.

Lemma missing_package_reported_witness :
  err_of (Sample.bare_host ["--prompt"])
  = [JsonText None (JObj [("error", JStr not_installed)])] /\
  contains "pip install" not_installed = true /\
  out_of (Sample.bare_host ["--prompt"]) = [] /\
  calls_of (Sample.bare_host ["--prompt"]) = [] /\
  environ (final (run (Sample.bare_host ["--prompt"])))
  = os_environ (Sample.bare_host ["--prompt"]) /\
  exit_status (run (Sample.bare_host ["--prompt"])) = 1%Z /\
  (forall h', langextract h' = None ->
              os_environ h' = os_environ (Sample.bare_host ["--prompt"]) ->
              run h' = run (Sample.bare_host ["--prompt"])).
Proof.
  apply (missing_package_reported (Sample.bare_host ["--prompt"])).
  reflexivity.
Defined.

(** A run that reaches the call makes exactly that one call. *)
Lemma calls_when_reached (h : Host) lx args :
  reaches_call h lx args -> calls_of h = [request_of args].
Proof.
  intros Hreach. unfold calls_of.
  destruct (answer h lx args) as [[result|e]|code|e] eqn:Hans.
  - destruct (serialized result) as [doc|e] eqn:Hser.
    + rewrite (run_success h lx args result doc Hreach Hans Hser). reflexivity.
    + rewrite (run_serialize_raises h lx args result e Hreach Hans Hser).
      reflexivity.
  - rewrite (run_call_raises h lx args e Hreach Hans). reflexivity.
  - rewrite (run_call_exits h lx args code Hreach Hans). reflexivity.
  - rewrite (run_call_escapes h lx args e Hreach Hans). reflexivity.
Qed.

(** Any run calls the library at most once, with the parsed arguments. *)
Lemma calls_cases (h : Host) :
  calls_of h = [] \/ exists args, calls_of h = [request_of args].
Proof.
  destruct (run_cases h) as [? Hrun|? ? ? Hrun|? ? ? ? ? Hrun|? ? ? ? ? Hrun
                            |? ? ? ? Hrun
                            |lx args ? Hreach _ _|lx args ? Hreach _ _
                            |lx args ? Hreach _ _|lx args ? ? Hreach _ _ _];
    try (left; unfold calls_of; rewrite Hrun; reflexivity);
    right; exists args; apply (calls_when_reached h lx args Hreach).
Qed.

(* ================================================================== *)
(** ** The parser: what is written on the command line *)
(* ================================================================== *)

Lemma finish_parsed (ns : Argparse.partial) (extras : list string)
      (a : Argparse.Namespace) :
  Argparse.finish ns extras = Argparse.Parsed a ->
  (forall d, namespace_field d a = partial_field d ns) /\ extras = [].
Proof.
  unfold Argparse.finish.
  destruct (Argparse.p_file ns) eqn:Hf, (Argparse.p_prompt ns) eqn:Hp, extras;
    intros H; inversion H; subst; split; [|reflexivity].
  intros []; simpl; congruence.
Qed.

Lemma finish_not_help (ns : Argparse.partial) (extras : list string) :
  Argparse.finish ns extras <> Argparse.HelpRequested.
Proof.
  unfold Argparse.finish.
  destruct (Argparse.p_file ns), (Argparse.p_prompt ns), extras; discriminate.
Qed.

(** One turn of the consuming loop. *)
Lemma consume_cons (ns : Argparse.partial) (extras : list string)
      (arg : string) (rest : list string) :
  Argparse.consume ns extras (arg :: rest)
  = if String.eqb arg "--" then Argparse.finish ns (extras ++ arg :: rest)
    else
      match Argparse.parse_optional arg with
      | Argparse.Plain | Argparse.UnknownOpt | Argparse.Ambiguous _ =>
          Argparse.consume ns (extras ++ [arg]) rest
      | Argparse.Opt Argparse.Help option_string None => Argparse.HelpRequested
      | Argparse.Opt Argparse.Help option_string (Some explicit_arg) =>
          if String.eqb option_string "-h"
             && negb (String.eqb explicit_arg "")
             && Argparse.all_chars (Ascii.eqb "h") explicit_arg
          then Argparse.HelpRequested
          else Argparse.UsageError
                 (Argparse.IgnoredExplicitArgument
                    (Argparse.display_name Argparse.Help) explicit_arg)
      | Argparse.Opt d option_string (Some explicit_arg) =>
          Argparse.consume
            (Argparse.store d (Argparse.attached explicit_arg) ns) extras rest
      | Argparse.Opt d option_string None =>
          match rest with
          | [] => Argparse.UsageError
                    (Argparse.ExpectedOneArgument (Argparse.display_name d))
          | value :: rest' =>
              if negb (String.eqb value "--") && Argparse.is_plain value
              then Argparse.consume (Argparse.store d (PStr value) ns)
                                    extras rest'
              else Argparse.UsageError
                     (Argparse.ExpectedOneArgument (Argparse.display_name d))
          end
      end.
Proof. reflexivity. Qed.

(** A plain argument is no option. *)
Lemma names_plain (d : Argparse.dest) (arg : string) :
  Argparse.is_plain arg = true -> names d arg = false.
Proof.
  unfold Argparse.is_plain, names.
  destruct (Argparse.parse_optional arg); congruence.
Qed.

Lemma is_plain_classified (s : string) :
  Argparse.is_plain s = true -> Argparse.parse_optional s = Argparse.Plain.
Proof.
  unfold Argparse.is_plain. destruct (Argparse.parse_optional s); congruence.
Qed.

(** Storing a value changes the option it is stored for and no other. *)
Lemma partial_field_store (d d' : Argparse.dest) (v : pyval)
      (ns : Argparse.partial) :
  d' <> Argparse.Help ->
  partial_field d (Argparse.store d' v ns)
  = if dest_eqb d d' then Some v else partial_field d ns.
Proof.
  intros Hd'. destruct d, d'; try reflexivity; contradiction Hd'; reflexivity.
Qed.

Lemma attached_value (value : string) :
  String.eqb value "--" = false -> Argparse.attached value = PStr value.
Proof. unfold Argparse.attached. intros ->. reflexivity. Qed.

(** What the loop returns for an option is what is written for it on
    the rest of the command line, or else what was stored before. *)
Lemma consume_written (n : nat) :
  forall (args : list string), (List.length args <= n)%nat ->
  forall d ns extras a,
    Argparse.consume ns extras args = Argparse.Parsed a ->
    namespace_field d a
    = match written_for d args with
      | Some s => Some (Argparse.attached s)
      | None => partial_field d ns
      end.
Proof.
  induction n as [|n IH]; intros args Hlen d ns extras a Hparsed.
  - destruct args; [|simpl in Hlen; lia].
    simpl in Hparsed. apply finish_parsed in Hparsed. apply Hparsed.
  - destruct args as [|arg rest].
    { simpl in Hparsed. apply finish_parsed in Hparsed. apply Hparsed. }
    simpl in Hlen. rewrite consume_cons in Hparsed.
    destruct (String.eqb arg "--").
    { apply finish_parsed in Hparsed. destruct Hparsed as [_ Hnil].
      destruct (app_cons_not_nil _ _ _ (eq_sym Hnil)). }
    cbn [written_for].
    destruct (Argparse.parse_optional arg) as [|d' os [x|]| |ms] eqn:Hkind;
      try (rewrite (IH rest ltac:(lia) d _ _ _ Hparsed);
           destruct (written_for d rest); reflexivity).
    + (* the value is attached *)
      assert (Hd' : d' <> Argparse.Help).
      { intros ->. destruct (_ && _); discriminate. }
      assert (Hstep : Argparse.consume
                        (Argparse.store d' (Argparse.attached x) ns) extras rest
                      = Argparse.Parsed a)
        by (destruct d'; solve [assumption | contradiction Hd'; reflexivity]).
      rewrite (IH rest ltac:(lia) d _ _ _ Hstep).
      destruct (written_for d rest); [reflexivity|].
      rewrite (partial_field_store d d' _ ns Hd').
      destruct (dest_eqb d d'); reflexivity.
    + (* the value is the next argument *)
      assert (Hd' : d' <> Argparse.Help) by (intros ->; discriminate).
      destruct rest as [|value rest'].
      { destruct d'; discriminate. }
      destruct (negb (String.eqb value "--") && Argparse.is_plain value)
        eqn:Hvalue.
      2: { destruct d'; discriminate. }
      apply andb_true_iff in Hvalue. destruct Hvalue as [Hsep Hplain].
      apply negb_true_iff in Hsep.
      assert (Hstep : Argparse.consume
                        (Argparse.store d' (PStr value) ns) extras rest'
                      = Argparse.Parsed a)
        by (destruct d'; solve [assumption | contradiction Hd'; reflexivity]).
      simpl in Hlen.
      rewrite (IH rest' ltac:(lia) d _ _ _ Hstep).
      cbn [written_for]. rewrite (is_plain_classified value Hplain).
      destruct (written_for d rest'); [reflexivity|].
      rewrite (partial_field_store d d' _ ns Hd').
      destruct (dest_eqb d d'); [|reflexivity].
      rewrite (attached_value value Hsep). reflexivity.
Qed.

(** The help text is only printed for a help flag. *)
Lemma consume_help (n : nat) :
  forall (args : list string), (List.length args <= n)%nat ->
  forall ns extras,
    Argparse.consume ns extras args = Argparse.HelpRequested ->
    given Argparse.Help args = true.
Proof.
  unfold given.
  induction n as [|n IH]; intros args Hlen ns extras Hhelp.
  - destruct args; [|simpl in Hlen; lia].
    simpl in Hhelp. destruct (finish_not_help _ _ Hhelp).
  - destruct args as [|arg rest].
    { simpl in Hhelp. destruct (finish_not_help _ _ Hhelp). }
    simpl in Hlen. rewrite consume_cons in Hhelp.
    destruct (String.eqb arg "--").
    { destruct (finish_not_help _ _ Hhelp). }
    cbn [existsb]. unfold names at 1.
    destruct (Argparse.parse_optional arg) as [|d os [x|]| |ms] eqn:Hkind;
      try (rewrite (IH rest ltac:(lia) _ _ Hhelp); reflexivity).
    + destruct d; try reflexivity;
        rewrite (IH rest ltac:(lia) _ _ Hhelp); apply orb_true_r.
    + destruct d; try reflexivity;
        (destruct rest as [|value rest']; [discriminate|]);
        (destruct (negb (String.eqb value "--") && Argparse.is_plain value);
         [|discriminate]);
        simpl in Hlen; cbn [existsb];
        rewrite (IH rest' ltac:(lia) _ _ Hhelp);
        rewrite !orb_true_r; reflexivity.
Qed.

(** An option that has a written value is given, and an option that is
    not given has none. *)
Lemma written_given (d : Argparse.dest) (argv : list string) (s : string) :
  written_for d argv = Some s -> given d argv = true.
Proof.
  unfold given. revert s.
  induction argv as [|arg rest IH]; intros s; cbn [written_for existsb];
    [discriminate|].
  destruct (written_for d rest) as [s'|].
  - intros _. rewrite (IH s' eq_refl). apply orb_true_r.
  - unfold names.
    destruct (Argparse.parse_optional arg) as [|d' os [x|]| |ms];
      try discriminate;
      destruct (dest_eqb d d'); try discriminate; reflexivity.
Qed.

(** What the parser returns, from what is written. *)
Lemma parse_args_written (argv : list string) (a : Argparse.Namespace)
      (d : Argparse.dest) :
  Argparse.parse_args argv = Argparse.Parsed a ->
  namespace_field d a
  = match written_for d argv with
    | Some s => Some (Argparse.attached s)
    | None => partial_field d Argparse.defaults
    end.
Proof.
  unfold Argparse.parse_args.
  destruct (Argparse.first_ambiguous argv); [discriminate|].
  apply (consume_written (List.length argv) argv (le_n _)).
Qed.

(** The parser gives a namespace only to a command line that has both
    required options; an option that is not given keeps its default. *)
Lemma parse_args_parsed (argv : list string) (a : Argparse.Namespace) :
  Argparse.parse_args argv = Argparse.Parsed a ->
  given Argparse.File argv = true /\
  given Argparse.Prompt argv = true /\
  (given Argparse.Model argv = false ->
   Argparse.model a = PStr "gemini-2.0-flash") /\
  (given Argparse.Schema argv = false -> Argparse.schema a = None).
Proof.
  intros H.
  pose proof (parse_args_written argv a Argparse.File H) as Hf.
  pose proof (parse_args_written argv a Argparse.Prompt H) as Hp.
  pose proof (parse_args_written argv a Argparse.Model H) as Hm.
  pose proof (parse_args_written argv a Argparse.Schema H) as Hs.
  repeat split.
  - destruct (written_for Argparse.File argv) eqn:E; [|discriminate].
    apply (written_given _ _ _ E).
  - destruct (written_for Argparse.Prompt argv) eqn:E; [|discriminate].
    apply (written_given _ _ _ E).
  - intros Hnot. destruct (written_for Argparse.Model argv) eqn:E.
    + rewrite (written_given _ _ _ E) in Hnot. discriminate.
    + simpl in Hm. congruence.
  - intros Hnot. destruct (written_for Argparse.Schema argv) eqn:E.
    + rewrite (written_given _ _ _ E) in Hnot. discriminate.
    + simpl in Hs. congruence.
Qed.

Lemma parse_args_help (argv : list string) :
  Argparse.parse_args argv = Argparse.HelpRequested ->
  given Argparse.Help argv = true.
Proof.
  unfold Argparse.parse_args.
  destruct (Argparse.first_ambiguous argv); [discriminate|].
  apply (consume_help (List.length argv) argv (le_n _)).
Qed.

(* ================================================================== *)
(** ** What is passed on to the library *)
(* ================================================================== *)

(** C8, refuted as written: on the command line [--file=-- --prompt x]
    the string written for [--file] is [--]; the parser drops it and
    the call is made with the empty list. *)
Lemma file_passed_literally_counterexample :
  ~ file_passed_literally
      (Sample.host (Ok PNone) ["--file=--"; "--prompt"; "x"]).
Proof.
  intros H.
  specialize (H "--"
                {| Lx.text_or_documents := PList [];
                   Lx.prompt_description := PStr "x";
                   Lx.model_id := PStr "gemini-2.0-flash";
                   Lx.examples := examples |}).
  assert (Hlit : PList [] = PStr "--"); [|discriminate Hlit].
  apply H.
  - reflexivity.
  - left. reflexivity.
Qed.

(** C8, amended: a run that gets as far as the library makes exactly
    one call, and its document reference is the string written on the
    command line for [--file] (attached to the last [--file] with [=],
    or following it), as it is, with one exception: a value that is
    exactly [--] is dropped by the argument parser and the call gets
    the empty list.  Nothing about the host is consulted on the way:
    whatever files are readable ([readable h] is never applied by the
    bridge), whatever the environment and the package, a host with
    the same command line makes the same call. *)
Theorem file_written_is_passed
        (h : Host) (lx : Lx.Library) (args : Argparse.Namespace) :
  reaches_call h lx args ->
  (exists f request,
      written_for Argparse.File (argv h) = Some f /\
      calls_of h = [request] /\
      Lx.text_or_documents request
      = if String.eqb f "--" then PList [] else PStr f) /\
  (forall h' lx',
      langextract h' = Some lx' -> loads_dotenv h' -> argv h' = argv h ->
      calls_of h' = calls_of h).
Proof.
  intros Hreach. split.
  - pose proof Hreach as (_ & _ & Hargs).
    pose proof (parse_args_written (argv h) args Argparse.File Hargs) as Hfile.
    destruct (written_for Argparse.File (argv h)) as [f|]; [|discriminate].
    exists f, (request_of args). split; [reflexivity|].
    split; [apply (calls_when_reached h lx args Hreach)|].
    simpl in *. inversion Hfile as [Hvalue]. rewrite Hvalue. reflexivity.
  - intros h' lx' Himp' Hload' Hargv.
    assert (Hreach' : reaches_call h' lx' args).
    { destruct Hreach as (_ & _ & Hargs). split; [assumption|].
      split; [assumption|]. rewrite Hargv. assumption. }
    rewrite (calls_when_reached h lx args Hreach).
    apply (calls_when_reached h' lx' args Hreach').
Qed.

Lemma file_written_is_passed_witness :
  (exists f request,
      written_for Argparse.File
                  (argv (Sample.host (Ok PNone)
                                     ["--file"; "missing.txt"; "--prompt"; "x"]))
      = Some f /\
      calls_of (Sample.host (Ok PNone) ["--file"; "missing.txt"; "--prompt"; "x"])
      = [request] /\
      Lx.text_or_documents request
      = if String.eqb f "--" then PList [] else PStr f) /\
  (forall h' lx',
      langextract h' = Some lx' -> loads_dotenv h' ->
      argv h' = argv (Sample.host (Ok PNone)
                                  ["--file"; "missing.txt"; "--prompt"; "x"]) ->
      calls_of h'
      = calls_of (Sample.host (Ok PNone)
                              ["--file"; "missing.txt"; "--prompt"; "x"])).
Proof.
  apply (file_written_is_passed
           (Sample.host (Ok PNone) ["--file"; "missing.txt"; "--prompt"; "x"])
           (Sample.package (Ok PNone))
           Sample.parsed_command_line).
  reaches_by_computation.
Defined.

(** C9: whatever two runs are given, every call either of them makes
    carries the same example set: the one-element list [examples] of
    the script.  No option, environment variable, file or answer of
    the library has a part in it. *)
Theorem examples_fixed (h1 h2 : Host) (r1 r2 : Lx.Request) :
  In r1 (calls_of h1) ->
  In r2 (calls_of h2) ->
  Lx.examples r1 = Lx.examples r2 /\
  Lx.examples r1 = examples /\
  List.length (Lx.examples r1) = 1%nat.
Proof.
  assert (Hfixed : forall h r, In r (calls_of h) -> Lx.examples r = examples).
  { intros h r Hin. destruct (calls_cases h) as [Hnone | [args Hone]].
    - rewrite Hnone in Hin. contradiction.
    - rewrite Hone in Hin. destruct Hin as [<- | []]. reflexivity. }
  intros H1 H2.
  rewrite (Hfixed h1 r1 H1), (Hfixed h2 r2 H2). auto.
Qed.

Lemma examples_fixed_witness :
  Lx.examples (request_of Sample.parsed_command_line)
  = Lx.examples
      {| Lx.text_or_documents := PStr "notes.md";
         Lx.prompt_description := PStr "list the dates";
         Lx.model_id := PStr "gemini-2.5-pro";
         Lx.examples := examples |} /\
  Lx.examples (request_of Sample.parsed_command_line) = examples /\
  List.length (Lx.examples (request_of Sample.parsed_command_line)) = 1%nat.
Proof.
  apply (examples_fixed
           (Sample.host (Ok PNone) Sample.command_line)
           (Sample.host (Raise (Exn "RuntimeError" "rate limited"))
                        ["--schema"; "{}"; "--model=gemini-2.5-pro";
                         "--prompt"; "list the dates"; "--file"; "notes.md"])).
  - vm_compute. left. reflexivity.
  - vm_compute. left. reflexivity.
Defined.

(* ================================================================== *)
(** ** Failures of every kind *)
(* ================================================================== *)




(* ================================================================== *)
(** ** The parser: required options, defaults, attached values *)
(* ================================================================== *)

(** X1: with both imports done and the environment file read, a
    command line on which [--file] or [--prompt] is not given (and
    help is not asked for) ends the run in the argument parser: a
    usage message on standard error, status 2, nothing on standard
    output, no call of the library. *)
Theorem required_options_enforced (h : Host) (lx : Lx.Library) :
  langextract h = Some lx ->
  loads_dotenv h ->
  given Argparse.Help (argv h) = false ->
  given Argparse.File (argv h) = false \/ given Argparse.Prompt (argv h) = false ->
  (exists err, err_of h = [UsageMessage err]) /\
  out_of h = [] /\
  calls_of h = [] /\
  exit_status (run h) = 2%Z.
Proof.
  intros Himp Hload Hhelp Hmissing.
  destruct (Argparse.parse_args (argv h)) as [a| |err] eqn:Hargs.
  - destruct (parse_args_parsed (argv h) a Hargs) as (Hf & Hp & _).
    destruct Hmissing; congruence.
  - pose proof (parse_args_help (argv h) Hargs). congruence.
  - unfold err_of, out_of, calls_of.
    rewrite (run_usage_error h lx err Himp Hload Hargs). simpl. eauto.
Qed.

Lemma required_options_enforced_witness :
  (exists err,
      err_of (Sample.host (Ok PNone) ["--file"; "notes.txt"; "--model=m"])
      = [UsageMessage err]) /\
  out_of (Sample.host (Ok PNone) ["--file"; "notes.txt"; "--model=m"]) = [] /\
  calls_of (Sample.host (Ok PNone) ["--file"; "notes.txt"; "--model=m"]) = [] /\
  exit_status (run (Sample.host (Ok PNone) ["--file"; "notes.txt"; "--model=m"]))
  = 2%Z.
Proof.
  apply (required_options_enforced
           (Sample.host (Ok PNone) ["--file"; "notes.txt"; "--model=m"])
           (Sample.package (Ok PNone))).
  - reflexivity.
  - split; [reflexivity | eexists; reflexivity].
  - vm_compute. reflexivity.
  - right. vm_compute. reflexivity.
Defined.

(** X2: when [--model] is not given, a run that reaches the library
    asks for the model [gemini-2.0-flash]. *)
Theorem default_model_requested (h : Host) (lx : Lx.Library)
        (args : Argparse.Namespace) :
  reaches_call h lx args ->
  given Argparse.Model (argv h) = false ->
  exists request,
    calls_of h = [request] /\ Lx.model_id request = PStr "gemini-2.0-flash".
Proof.
  intros Hreach Hnot. exists (request_of args).
  split; [apply (calls_when_reached h lx args Hreach)|].
  destruct Hreach as (_ & _ & Hargs).
  destruct (parse_args_parsed (argv h) args Hargs) as (_ & _ & Hm & _).
  simpl. auto.
Qed.

Lemma default_model_requested_witness :
  exists request,
    calls_of (Sample.host (Ok PNone) Sample.command_line) = [request] /\
    Lx.model_id request = PStr "gemini-2.0-flash".
Proof.
  apply (default_model_requested
           (Sample.host (Ok PNone) Sample.command_line)
           (Sample.package (Ok PNone)) Sample.parsed_command_line).
  - reaches_by_computation.
  - vm_compute. reflexivity.
Defined.

(** Options written with [=]: the text after the sign is the value,
    unless it is the separator. *)
Lemma parse_attached_values (f p m : string) :
  Argparse.parse_args
    [("--file=" ++ f)%string; ("--prompt=" ++ p)%string; ("--model=" ++ m)%string]
  = Argparse.Parsed {| Argparse.file := Argparse.attached f;
                       Argparse.prompt := Argparse.attached p;
                       Argparse.model := Argparse.attached m;
                       Argparse.schema := None |}.
Proof. reflexivity. Qed.

(** X3: on the command line [--file=F --prompt=P --model=M] the one
    call made has document reference F, prompt P and model M as they
    are written, also when they are empty or start with a dash; only
    a value that is exactly [--] is replaced, by the empty list. *)
Theorem attached_values_passed (h : Host) (lx : Lx.Library) (f p m : string) :
  langextract h = Some lx ->
  loads_dotenv h ->
  argv h = [("--file=" ++ f)%string; ("--prompt=" ++ p)%string;
            ("--model=" ++ m)%string] ->
  calls_of h
  = [ {| Lx.text_or_documents := if String.eqb f "--" then PList [] else PStr f;
         Lx.prompt_description := if String.eqb p "--" then PList [] else PStr p;
         Lx.model_id := if String.eqb m "--" then PList [] else PStr m;
         Lx.examples := examples |} ].
Proof.
  intros Himp Hload Hargv.
  apply (calls_when_reached h lx
           {| Argparse.file := Argparse.attached f;
              Argparse.prompt := Argparse.attached p;
              Argparse.model := Argparse.attached m;
              Argparse.schema := None |}).
  split; [assumption|]. split; [assumption|].
  rewrite Hargv. apply parse_attached_values.
Qed.

Lemma attached_values_passed_witness :
  calls_of (Sample.host (Ok PNone) ["--file=-"; "--prompt="; "--model=--"])
  = [ {| Lx.text_or_documents :=
           if String.eqb "-" "--" then PList [] else PStr "-";
         Lx.prompt_description :=
           if String.eqb "" "--" then PList [] else PStr "";
         Lx.model_id :=
           if String.eqb "--" "--" then PList [] else PStr "--";
         Lx.examples := examples |} ].
Proof.
  apply (attached_values_passed
           (Sample.host (Ok PNone) ["--file=-"; "--prompt="; "--model=--"])
           (Sample.package (Ok PNone)) "-" "" "--").
  - reflexivity.
  - split; [reflexivity | eexists; reflexivity].
  - reflexivity.
Defined.

(* ================================================================== *)
(** ** Every run, and what a run does not depend on *)
(* ================================================================== *)

(** X4: the script, the argument parser and the interpreter between
    them write at most one message in a run, and never on both
    streams: standard output is written only in a run that ends with
    status 0 and standard error only in a run that ends with another
    status.  The library is called at most once. *)
Theorem at_most_one_message (h : Host) :
  (List.length (out_of h) + List.length (err_of h) <= 1)%nat /\
  (out_of h <> [] -> exit_status (run h) = 0%Z) /\
  (err_of h <> [] -> exit_status (run h) <> 0%Z) /\
  (List.length (calls_of h) <= 1)%nat.
Proof.
  unfold out_of, err_of, calls_of.
  destruct (run_cases h) as [? Hrun|? ? ? Hrun|? ? ? ? ? Hrun|? ? ? ? ? Hrun
                            |? ? ? ? Hrun|? ? ? ? ? Hrun|? ? code ? ? Hrun
                            |? ? ? ? ? Hrun|? ? ? ? ? ? ? Hrun];
    rewrite Hrun; try destruct code as [|[]|n|s|xs|kvs|c fs];
    cbn [final exit_status finished stdout stderr calls exit_text_of
         exit_status_of List.length Nat.add];
    repeat split; auto; try lia; try discriminate;
    intros Hne; contradiction Hne; reflexivity.
Qed.

Lemma request_of_ext (a1 a2 : Argparse.Namespace) :
  Argparse.file a1 = Argparse.file a2 ->
  Argparse.prompt a1 = Argparse.prompt a2 ->
  Argparse.model a1 = Argparse.model a2 ->
  request_of a1 = request_of a2.
Proof. unfold request_of. intros -> -> ->. reflexivity. Qed.

(** The streams, the calls and the status of a run that reaches the
    call, from the answer of the library. *)
Lemma run_from_answer (h : Host) lx args :
  reaches_call h lx args ->
  (out_of h, err_of h, calls_of h, exit_status (run h))
  = match answer h lx args with
    | Lx.Reply r =>
        match result <- r ;; serialized result with
        | Ok doc => ([JsonText (Some 2%nat) doc], [], [request_of args], 0%Z)
        | Raise e =>
            ([], [JsonText None (error_object (exn_str e) (exn_type e))],
             [request_of args], 1%Z)
        end
    | Lx.SystemExit code =>
        ([], exit_text_of code, [request_of args], exit_status_of code)
    | Lx.BaseException e => ([], [Traceback e], [request_of args], 1%Z)
    end.
Proof.
  intros Hreach. unfold out_of, err_of, calls_of.
  destruct (answer h lx args) as [[result|e]|code|e] eqn:Hans; cbn [bind].
  - destruct (serialized result) as [doc|e] eqn:Hser.
    + rewrite (run_success h lx args result doc Hreach Hans Hser). reflexivity.
    + rewrite (run_serialize_raises h lx args result e Hreach Hans Hser).
      reflexivity.
  - rewrite (run_call_raises h lx args e Hreach Hans). reflexivity.
  - rewrite (run_call_exits h lx args code Hreach Hans). reflexivity.
  - rewrite (run_call_escapes h lx args e Hreach Hans). reflexivity.
Qed.

(** X5: the bridge itself looks at nothing but the file, the prompt
    and the model: two runs that reach the call with these three equal
    and get the same answer from the library print the same, make the
    same call and end with the same status, whatever [--schema] was
    given and whatever the environment holds (the API keys included). *)
Theorem schema_and_environment_ignored
        (h1 h2 : Host) (lx1 lx2 : Lx.Library) (a1 a2 : Argparse.Namespace) :
  reaches_call h1 lx1 a1 ->
  reaches_call h2 lx2 a2 ->
  Argparse.file a1 = Argparse.file a2 ->
  Argparse.prompt a1 = Argparse.prompt a2 ->
  Argparse.model a1 = Argparse.model a2 ->
  answer h1 lx1 a1 = answer h2 lx2 a2 ->
  out_of h1 = out_of h2 /\
  err_of h1 = err_of h2 /\
  calls_of h1 = calls_of h2 /\
  exit_status (run h1) = exit_status (run h2).
Proof.
  intros H1 H2 Hf Hp Hm Hans.
  pose proof (run_from_answer h1 lx1 a1 H1) as E1.
  pose proof (run_from_answer h2 lx2 a2 H2) as E2.
  rewrite Hans, (request_of_ext a1 a2 Hf Hp Hm) in E1.
  rewrite <- E2 in E1. inversion E1. auto.
Qed.
Lemma schema_and_environment_ignored_witness :
  out_of (Sample.host (Ok (Sample.result_of [Sample.alice])) Sample.command_line)
  = out_of {| langextract := Some (Sample.package (Ok (Sample.result_of [Sample.alice])));
              argv := ["--schema"; "{}"; "--prompt"; "x"; "--file"; "missing.txt"];
              os_environ := [];
              dotenv_installed := true;
              dotenv_file := Ok [];
              readable := fun _ => true |} /\
  err_of (Sample.host (Ok (Sample.result_of [Sample.alice])) Sample.command_line)
  = err_of {| langextract := Some (Sample.package (Ok (Sample.result_of [Sample.alice])));
              argv := ["--schema"; "{}"; "--prompt"; "x"; "--file"; "missing.txt"];
              os_environ := [];
              dotenv_installed := true;
              dotenv_file := Ok [];
              readable := fun _ => true |} /\
  calls_of (Sample.host (Ok (Sample.result_of [Sample.alice])) Sample.command_line)
  = calls_of {| langextract := Some (Sample.package (Ok (Sample.result_of [Sample.alice])));
                argv := ["--schema"; "{}"; "--prompt"; "x"; "--file"; "missing.txt"];
                os_environ := [];
                dotenv_installed := true;
              dotenv_file := Ok [];
                readable := fun _ => true |} /\
  exit_status (run (Sample.host (Ok (Sample.result_of [Sample.alice]))
                                Sample.command_line))
  = exit_status
      (run {| langextract := Some (Sample.package (Ok (Sample.result_of [Sample.alice])));
              argv := ["--schema"; "{}"; "--prompt"; "x"; "--file"; "missing.txt"];
              os_environ := [];
              dotenv_installed := true;
              dotenv_file := Ok [];
              readable := fun _ => true |}).
Proof.
  apply (schema_and_environment_ignored
           (Sample.host (Ok (Sample.result_of [Sample.alice])) Sample.command_line)
           {| langextract := Some (Sample.package (Ok (Sample.result_of [Sample.alice])));
              argv := ["--schema"; "{}"; "--prompt"; "x"; "--file"; "missing.txt"];
              os_environ := [];
              dotenv_installed := true;
              dotenv_file := Ok [];
              readable := fun _ => true |}
           (Sample.package (Ok (Sample.result_of [Sample.alice])))
           (Sample.package (Ok (Sample.result_of [Sample.alice])))
           Sample.parsed_command_line
           {| Argparse.file := PStr "missing.txt"; Argparse.prompt := PStr "x";
              Argparse.model := PStr "gemini-2.0-flash";
              Argparse.schema := Some (PStr "{}") |}).
  - reaches_by_computation.
  - reaches_by_computation.
  - reflexivity.
  - reflexivity.
  - reflexivity.
  - reflexivity.
Defined.

(* ================================================================== *)
(** ** When serialization succeeds and how it fails *)
(* ================================================================== *)

Section ComprehensionMore.
Context {A B : Type} (f : A -> res B).

(** A comprehension raises what its first failing element raises. *)
Lemma comprehension_first_failure (good : list A) (bad : A) (rest : list A)
      (e : exn) :
  Forall (fun x => exists y, f x = Ok y) good ->
  f bad = Raise e ->
  comprehension f (good ++ bad :: rest) = Raise e.
Proof.
  intros Hgood Hbad. induction Hgood as [|x good [y Hx] _ IH]; simpl.
  - rewrite Hbad. reflexivity.
  - rewrite Hx. simpl. rewrite IH. reflexivity.
Qed.

End ComprehensionMore.

(** What a failing attribute access raises. *)
Lemma getattr_raises (v : pyval) (name : string) (e : exn) :
  getattr v name = Raise e ->
  e = AttributeError
        ("'" ++ type_name v ++ "' object has no attribute '" ++ name ++ "'").
Proof.
  destruct v; simpl; try (intros E; inversion E; reflexivity).
  destruct (lookup name attrs); intros E; inversion E; reflexivity.
Qed.

(** X8: [result.extractions] is read first.  A returned object without
    that attribute ([None], a dictionary, any other object) is
    reported as the [AttributeError] that names its type, whatever
    else it holds. *)
Theorem missing_extractions_reported (h : Host) (result : pyval) :
  returned h result ->
  hasattr result "extractions" = false ->
  err_of h
  = [JsonText None
       (JObj [("error",
               JStr ("'" ++ type_name result
                         ++ "' object has no attribute 'extractions'"));
              ("type", JStr "AttributeError")])] /\
  out_of h = [] /\
  exit_status (run h) = 1%Z.
Proof.
  intros (lx & args & Hreach & Hans) Habs.
  unfold hasattr in Habs.
  destruct (getattr result "extractions") as [a|e] eqn:Hget; [discriminate|].
  pose proof (getattr_raises result "extractions" e Hget) as ->.
  assert (Hser : serialized result
                 = Raise (AttributeError
                            ("'" ++ type_name result
                                 ++ "' object has no attribute 'extractions'"))).
  { unfold serialized, output. rewrite Hget. reflexivity. }
  unfold err_of, out_of.
  rewrite (run_serialize_raises h lx args result _ Hreach Hans Hser).
  simpl. auto.
Qed.

Lemma missing_extractions_reported_witness :
  err_of (Sample.host (Ok PNone) Sample.command_line)
  = [JsonText None
       (JObj [("error",
               JStr ("'" ++ type_name PNone
                         ++ "' object has no attribute 'extractions'"));
              ("type", JStr "AttributeError")])] /\
  out_of (Sample.host (Ok PNone) Sample.command_line) = [] /\
  exit_status (run (Sample.host (Ok PNone) Sample.command_line)) = 1%Z.
Proof.
  apply (missing_extractions_reported
           (Sample.host (Ok PNone) Sample.command_line) PNone).
  - apply sample_returns.
  - reflexivity.
Defined.

(** X9: items are serialized from left to right and the first one that
    fails ends the run: its exception is the one reported, whatever
    the items after it, [model_id] and [usage_metadata] are, and even
    when an earlier item holds a value that [json.dumps] would reject
    (the document is encoded only after every entry is built). *)
Theorem first_failing_item_reported
        (h : Host) (result : pyval) (good : list pyval) (bad : pyval)
        (rest : list pyval) (e : exn) :
  returned h result ->
  extraction_items result = Ok (good ++ bad :: rest) ->
  Forall (fun x => exists d, extraction_entry x = Ok d) good ->
  extraction_entry bad = Raise e ->
  err_of h = [JsonText None
                (JObj [("error", JStr (exn_str e)); ("type", JStr (exn_type e))])] /\
  out_of h = [] /\
  exit_status (run h) = 1%Z.
Proof.
  intros (lx & args & Hreach & Hans) Hitems Hgood Hbad.
  assert (Hser : serialized result = Raise e).
  { unfold serialized, output. unfold extraction_items in Hitems.
    bind_inv. cbn [bind]. rewrite Hitems. cbn [bind].
    rewrite (comprehension_first_failure extraction_entry good bad rest e
               Hgood Hbad).
    reflexivity. }
  unfold err_of, out_of.
  rewrite (run_serialize_raises h lx args result e Hreach Hans Hser).
  simpl. auto.
Qed.

Lemma first_failing_item_reported_witness :
  err_of (Sample.host
            (Ok (Sample.result_of
                   [Sample.alice; Sample.rabbit; PInt 7; Sample.wonderland]))
            Sample.command_line)
  = [JsonText None
       (JObj [("error", JStr "'NoneType' object is not iterable");
              ("type", JStr "TypeError")])] /\
  out_of (Sample.host
            (Ok (Sample.result_of
                   [Sample.alice; Sample.rabbit; PInt 7; Sample.wonderland]))
            Sample.command_line) = [] /\
  exit_status
    (run (Sample.host
            (Ok (Sample.result_of
                   [Sample.alice; Sample.rabbit; PInt 7; Sample.wonderland]))
            Sample.command_line)) = 1%Z.
Proof.
  apply (first_failing_item_reported
           (Sample.host
              (Ok (Sample.result_of
                     [Sample.alice; Sample.rabbit; PInt 7; Sample.wonderland]))
              Sample.command_line)
           (Sample.result_of
              [Sample.alice; Sample.rabbit; PInt 7; Sample.wonderland])
           [Sample.alice] Sample.rabbit [PInt 7; Sample.wonderland]
           (TypeError "'NoneType' object is not iterable")).
  - apply sample_returns.
  - reflexivity.
  - constructor; [eexists; reflexivity | constructor].
  - reflexivity.
Defined.

(** Entries that can each be built and encoded make a list that can. *)
Lemma entries_return {A} (f : A -> res pyval) (xs : list A) :
  Forall (fun x => exists j, (d <- f x ;; encode d) = Ok j) xs ->
  exists ds js, comprehension f xs = Ok ds /\ encode (PList ds) = Ok (JArr js).
Proof.
  induction 1 as [|x xs [j Hx] _ (ds & js & Hds & Hjs)].
  - exists [], []. split; reflexivity.
  - destruct (f x) as [d|e] eqn:Hd; cbn [bind] in Hx; [|discriminate].
    exists (d :: ds), (j :: js). simpl comprehension. rewrite Hd, Hds.
    split; [reflexivity|].
    rewrite encode_list in *. simpl comprehension. rewrite Hx. cbn [bind].
    destruct (comprehension encode ds); cbn [bind] in *; [|discriminate].
    inversion Hjs; subst. reflexivity.
Qed.

Lemma well_formed_citation_entry (c : pyval) :
  well_formed_citation c <-> exists j, citation_for c j.
Proof.
  unfold well_formed_citation, dumpable_attr, encodable, citation_for,
    citation_entry.
  split.
  - intros ((s & Hs & js & Hjs) & (e & He & je & Hje) & (t & Ht & jt & Hjt)).
    rewrite Hs, He, Ht. cbn [bind]. rewrite encode_dict.
    cbn [comprehension fst snd]. rewrite Hjs, Hje, Hjt. cbn [bind]. eauto.
  - intros [j Hj]. apply citation_for_shape in Hj.
    destruct Hj as (s & e & t & js & je & jt & Hs & He & Ht & Hjs & Hje & Hjt & _).
    repeat split; eauto.
Qed.

Lemma citations_of_present (e : pyval) :
  hasattr e "citations" = true ->
  citations_of e
  = (cs <- citation_items e ;;
     entries <- comprehension citation_entry cs ;;
     Ok (PList entries)).
Proof.
  unfold citations_of, citation_items. intros ->.
  destruct (getattr e "citations"); [|reflexivity]. cbn [bind].
  destruct (iter a); reflexivity.
Qed.

Lemma well_formed_item_entry (e : pyval) :
  well_formed_item e <-> exists j, entry_for e j.
Proof.
  split.
  - intros ((c & Hc & jc & Hjc) & (t & Ht & jt & Hjt) & (a & Ha & ja & Hja) & Hcit).
    assert (Hcs : exists cs jcs, citations_of e = Ok cs /\ encode cs = Ok jcs).
    { destruct Hcit as [Habs | (cs & Hcs & Hall)].
      - rewrite (citations_of_absent e Habs). eexists _, _.
        split; reflexivity.
      - assert (Hhas : hasattr e "citations" = true).
        { unfold hasattr. unfold citation_items in Hcs.
          destruct (getattr e "citations"); [reflexivity|discriminate]. }
        rewrite (citations_of_present e Hhas), Hcs. cbn [bind].
        destruct (entries_return citation_entry cs) as (ds & js & Hds & Hjs).
        { eapply Forall_impl; [|exact Hall].
          intros c0 Hc0. apply well_formed_citation_entry in Hc0. exact Hc0. }
        rewrite Hds. cbn [bind]. eauto. }
    destruct Hcs as (cs & jcs & Hcs & Hjcs).
    unfold entry_for, extraction_entry.
    rewrite Hc, Ht, Ha, Hcs. cbn [bind]. rewrite encode_dict.
    cbn [comprehension fst snd]. rewrite Hjc, Hjt, Hja, Hjcs. cbn [bind]. eauto.
  - intros [j Hj]. pose proof Hj as Hshape. apply entry_for_shape in Hshape.
    destruct Hshape as (c & t & a & cs & jc & jt & ja & jcs
                        & Hc & Ht & Ha & Hcs & Hjc & Hjt & Hja & Hjcs & _).
    unfold well_formed_item, dumpable_attr, encodable.
    repeat split; eauto.
    destruct (hasattr e "citations") eqn:Hhas; [right|left; reflexivity].
    rewrite (citations_of_present e Hhas) in Hcs.
    destruct (citation_items e) as [items|e0] eqn:Hitems; cbn [bind] in Hcs;
      [|discriminate].
    exists items. split; [reflexivity|].
    destruct (entry_with_citations e j items Hj Hitems) as (js & _ & Hall).
    eapply Forall2_Forall_left; [exact Hall|].
    intros c0 j0 Hc0. apply well_formed_citation_entry. eauto.
Qed.

Lemma serialized_returns_iff (result : pyval) :
  (exists doc, serialized result = Ok doc) <-> well_formed_result result.
Proof.
  split.
  - intros [doc Hser]. apply serialized_shape in Hser.
    destruct Hser as (items & entries & m & u & jm & ju
                      & Hitems & Hm & Hu & Hjm & Hju & Hall & _).
    unfold well_formed_result, dumpable_attr, encodable.
    repeat split; eauto.
    exists items. split; [assumption|].
    eapply Forall2_Forall_left; [exact Hall|].
    intros e j He. apply well_formed_item_entry. eauto.
  - intros ((items & Hitems & Hall) & (m & Hm & jm & Hjm) & (u & Hu & ju & Hju)).
    destruct (entries_return extraction_entry items) as (ds & js & Hds & Hjs).
    { eapply Forall_impl; [|exact Hall].
      intros e He. apply well_formed_item_entry in He. exact He. }
    unfold serialized, output. unfold extraction_items in Hitems.
    destruct (getattr result "extractions") as [v|e0]; cbn [bind] in *;
      [|discriminate].
    rewrite Hitems. cbn [bind]. rewrite Hds. cbn [bind].
    rewrite Hm, Hu. cbn [bind]. rewrite encode_dict.
    cbn [comprehension fst snd]. rewrite Hjs, Hjm, Hju. cbn [bind]. eauto.
Qed.

(** X6: once the library has returned, the run succeeds exactly when
    the returned object is well formed for the serializer: its
    [extractions] can be iterated, every item has [extraction_class],
    [extraction_text] and [attributes] with JSON forms and either no
    [citations] or an iterable of citations that each have [start],
    [end] and [text] with JSON forms, and [model_id] and
    [usage_metadata] are there with JSON forms.  Anything less ends
    in the failure path. *)
Theorem success_iff_well_formed (h : Host) (result : pyval) :
  returned h result ->
  (well_formed_result result <-> exit_status (run h) = 0%Z).
Proof.
  intros Hret.
  rewrite <- (successful_iff_status_zero h result Hret).
  rewrite <- serialized_returns_iff.
  unfold successful. tauto.
Qed.

Lemma success_iff_well_formed_witness :
  well_formed_result (Sample.result_of [Sample.alice; Sample.wonderland])
  <-> exit_status
        (run (Sample.host
                (Ok (Sample.result_of [Sample.alice; Sample.wonderland]))
                Sample.command_line)) = 0%Z.
Proof.
  apply (success_iff_well_formed
           (Sample.host (Ok (Sample.result_of [Sample.alice; Sample.wonderland]))
                        Sample.command_line)
           (Sample.result_of [Sample.alice; Sample.wonderland])).
  apply sample_returns.
Defined.

